(** * starknet-devnet: the JSON-RPC dispatcher and the chain origins

    A shallow embedding of
    - [starknet_devnet/blueprints/rpc/routes.py] (the registry [methods],
      [parse_body] and [base_route]),
    - [starknet_devnet/server.py] (the error handler [handle] that the
      application registers for [StarkException]),
    - [starknet_devnet/origin.py] ([NullOrigin] and [ForkedOrigin]),
    followed by the properties of the dispatcher and of the origins.

    Python values are modelled by the inductive [json] (what [request.json]
    hands to the route), exceptions by the inductive [exn] together with the
    subclass relation the [except] clauses test, and a computation that may
    raise by the error monad [result]. *)

From Stdlib Require Import ZArith Lia Bool Ascii String List.
From Stdlib Require Import DecimalString HexadecimalString.
From Stdlib Require Import Floats.SpecFloat.
From Stdlib Require HexadecimalPos DecimalPos DecimalZ.
From stdpp Require Import base option strings gmap.

Local Open Scope Z_scope.
Local Open Scope string_scope.

(* ================================================================== *)
(** * Python values and exceptions *)
(* ================================================================== *)

Module Py.

(** The value [request.json] yields: [None], [bool], [int], [float], [str],
    [list] or [dict].  A [dict] is kept as the list of its items in insertion
    order (keys of a real dict are pairwise distinct; [dict_get] reads the
    first binding of a key). *)
#[warnings="-register-all"]
Inductive json : Type :=
| JNull
| JBool (b : bool)
| JInt (z : Z)
| JFloat (f : spec_float)
| JStr (s : string)
| JList (l : list json)
| JDict (items : list (string * json)).

(** [d.get(key)] seen as an option, and the test [key in d]. *)
Fixpoint dict_get (key : string) (items : list (string * json)) : option json :=
  match items with
  | [] => None
  | (k, v) :: rest => if String.eqb k key then Some v else dict_get key rest
  end.

(** Python truth value testing, as used by [or] and [if]. *)
Definition truthy (v : json) : bool :=
  match v with
  | JNull => false
  | JBool b => b
  | JInt z => negb (Z.eqb z 0)
  | JFloat (S754_zero _) => false
  | JFloat _ => true
  | JStr s => negb (String.eqb s "")
  | JList l => match l with [] => false | _ => true end
  | JDict d => match d with [] => false | _ => true end
  end.

(** [a or b] *)
Definition py_or (a b : json) : json := if truthy a then a else b.

Definition is_list (v : json) : bool :=
  match v with JList _ => true | _ => false end.

Definition is_dict (v : json) : bool :=
  match v with JDict _ => true | _ => false end.

(** The scalar shapes of a JSON value: string, number or bool. *)
Definition is_scalar (v : json) : bool :=
  match v with
  | JBool _ | JInt _ | JFloat _ | JStr _ => true
  | _ => false
  end.

(** ** Exceptions *)

Inductive exn_class : Type :=
| cException
| cTypeError
| cKeyError
| cAttributeError
| cRuntimeError
| cNotImplementedError
| cRpcError
| cStarkException.

(** An exception instance with the attributes the code reads.
    [StarkException] stands for an instance of that class or of one of its
    subclasses. *)
Inductive exn : Type :=
| TypeError (msg : string)
| KeyError (key : string)
| AttributeError (msg : string)
| RuntimeError (msg : string)
| NotImplementedError
| RpcError (code : Z) (message : string)
| StarkException (message : string) (status_code : Z).

Definition class_of (e : exn) : exn_class :=
  match e with
  | TypeError _ => cTypeError
  | KeyError _ => cKeyError
  | AttributeError _ => cAttributeError
  | RuntimeError _ => cRuntimeError
  | NotImplementedError => cNotImplementedError
  | RpcError _ _ => cRpcError
  | StarkException _ _ => cStarkException
  end.

Definition exn_class_eqb (a b : exn_class) : bool :=
  match a, b with
  | cException, cException | cTypeError, cTypeError | cKeyError, cKeyError
  | cAttributeError, cAttributeError | cRuntimeError, cRuntimeError
  | cNotImplementedError, cNotImplementedError | cRpcError, cRpcError
  | cStarkException, cStarkException => true
  | _, _ => false
  end.

(** [issubclass]: every class derives from [Exception], and
    [NotImplementedError] derives from [RuntimeError]. *)
Definition issubclass (c parent : exn_class) : bool :=
  match parent with
  | cException => true
  | cRuntimeError =>
      match c with cRuntimeError | cNotImplementedError => true | _ => false end
  | _ => exn_class_eqb c parent
  end.

Definition isinstance (e : exn) (c : exn_class) : bool :=
  issubclass (class_of e) c.

(** ** Computations that may raise *)

Inductive result (A : Type) : Type :=
| Return (a : A)
| Raise (e : exn).
Arguments Return {A} a.
Arguments Raise {A} e.

Definition bind {A B} (m : result A) (k : A -> result B) : result B :=
  match m with
  | Return a => k a
  | Raise e => Raise e
  end.

(** [try: m  except c as e: h e] *)
Definition try_except {A} (m : result A) (c : exn_class)
    (h : exn -> result A) : result A :=
  match m with
  | Return a => Return a
  | Raise e => if isinstance e c then h e else Raise e
  end.

(** ** Strings *)

(** [s.replace(old, new)] for a non-empty [old]: scanning from the left, every
    occurrence of [old] found is replaced by [new] and the scan resumes after
    it.  [skip] counts the characters of a matched occurrence still to drop. *)
Fixpoint replace_from (old new : string) (skip : nat) (s : string) : string :=
  match s with
  | EmptyString => EmptyString
  | String c rest =>
      match skip with
      | S k => replace_from old new k rest
      | O =>
          if String.prefix old s
          then new +:+ replace_from old new (Nat.pred (String.length old)) rest
          else String c (replace_from old new O rest)
      end
  end.

(** With [old] empty, [new] goes before every character and at the end. *)
Fixpoint intersperse (new s : string) : string :=
  match s with
  | EmptyString => new
  | String c rest => new +:+ String c (intersperse new rest)
  end.

Definition replace (s old new : string) : string :=
  match old with
  | EmptyString => intersperse new s
  | _ => replace_from old new O s
  end.

(** [s[:n] + piece + s[n:]] *)
Definition insert_at (n : nat) (piece s : string) : string :=
  (substring 0 n s +:+ piece)
  +:+ substring n (String.length s - n) s.

(** The decimal digits of [n], with a leading [-] when negative. *)
Definition decimal (n : Z) : string :=
  DecimalString.NilZero.string_of_int (Z.to_int n).

(** [sys.get_int_max_str_digits()] as the interpreter starts: 4300.  An
    interpreter without the limit, or with the limit switched off, has 0. *)
Definition default_max_str_digits : nat := 4300.

(** [str(n)] for an [int], also what an f-string does with [{n}], under the
    limit [max_str_digits] of the interpreter: [None] stands for the
    [ValueError] raised when the limit is on and [n] has more digits, the
    sign not counted. *)
Definition within_limit (max_str_digits : nat) (n : Z) : Prop :=
  max_str_digits = 0%nat \/
  (String.length (decimal (Z.abs n)) <= max_str_digits)%nat.

Definition str_of_int (max_str_digits : nat) (n : Z) : option string :=
  if Nat.ltb 0 max_str_digits
     && Nat.ltb max_str_digits (String.length (decimal (Z.abs n)))
  then None
  else Some (decimal n).

(** [hex(n)] for an [int]: sign, ["0x"], lower-case digits. *)
Definition hex_digits (n : Z) : string :=
  match n with
  | Z0 => "0"
  | Zpos p | Zneg p =>
      HexadecimalString.NilZero.string_of_uint (Pos.to_hex_uint p)
  end.

Definition hex (n : Z) : string :=
  ((if Z.ltb n 0 then "-" else "") +:+ "0x") +:+ hex_digits n.

End Py.

Import Py.

Declare Scope result_scope.
Delimit Scope result_scope with result.
Notation "'let*' x ':=' m 'in' k" := (Py.bind m (fun x => k))
  (at level 10, x name, m at level 100, k at level 200) : result_scope.

(* ================================================================== *)
(** * blueprints/rpc/routes.py *)
(* ================================================================== *)

Module Routes.

(** The handler functions the module imports; their bodies live in the
    sibling modules [blocks], [call], [classes], [misc], [state], [storage]
    and [transactions]. *)
Inductive handler : Type :=
| get_block_with_tx_hashes
| get_block_with_txs
| get_state_update
| get_storage_at
| get_transaction_by_hash
| get_transaction_by_block_id_and_index
| get_transaction_receipt
| get_class
| get_class_hash_at
| get_class_at
| get_block_transaction_count
| call
| estimate_fee
| block_number
| block_hash_and_number
| chain_id
| pending_transactions
| syncing
| get_events
| get_nonce
| add_invoke_transaction
| add_declare_transaction
| add_deploy_transaction.

(** The items of the dict literal [methods], in source order. *)
Definition methods_items : list (string * handler) :=
  [ ("getBlockWithTxHashes", get_block_with_tx_hashes);
    ("getBlockWithTxs", get_block_with_txs);
    ("getStateUpdate", get_state_update);
    ("getStorageAt", get_storage_at);
    ("getTransactionByHash", get_transaction_by_hash);
    ("getTransactionByBlockIdAndIndex", get_transaction_by_block_id_and_index);
    ("getTransactionReceipt", get_transaction_receipt);
    ("getClass", get_class);
    ("getClassHashAt", get_class_hash_at);
    ("getClassAt", get_class_at);
    ("getBlockTransactionCount", get_block_transaction_count);
    ("call", call);
    ("estimateFee", estimate_fee);
    ("blockNumber", block_number);
    ("blockHashAndNumber", block_hash_and_number);
    ("chainId", chain_id);
    ("pendingTransactions", pending_transactions);
    ("syncing", syncing);
    ("getEvents", get_events);
    ("getNonce", get_nonce);
    ("addInvokeTransaction", add_invoke_transaction);
    ("addDeclareTransaction", add_declare_transaction);
    ("addDeployTransaction", add_deploy_transaction) ].

Definition methods : gmap string handler := list_to_map methods_items.

(** The members of [RpcErrorCode] this module reads.  The enumeration is
    declared in [structures/types.py]; its numbers reach the dispatcher
    through [.value] only. *)
Inductive RpcErrorCode : Type :=
| INVALID_REQUEST
| METHOD_NOT_FOUND
| INVALID_PARAMS.

(** The places where the interpreter itself raises in this module. *)
Inductive fault : Type :=
| NotSubscriptable            (* [v["key"]] on a value that is no dict *)
| NoAttribute (name : string) (* [v.name] on a value without it *)
| NotAMapping.                (* [f( **v)] on a value that is no dict *)

(** What the dispatcher takes from outside this module:
    - [value], the number of each [RpcErrorCode] member;
    - [bind_arguments h args kwargs], the interpreter binding the positional
      arguments [args] and the keyword arguments [kwargs] to the parameters
      of [h]: either the description of the binding failure (the text of the
      [TypeError] it raises) or the bound parameters;
    - [run h bound], the body of the handler on bound parameters;
    - [describe], the text the interpreter puts in the exception of a
      [fault]. *)
Class Runtime : Type := {
  value : RpcErrorCode -> Z;
  bind_arguments :
    handler -> list json -> list (string * json) ->
    string + list (string * json);
  run : handler -> list (string * json) -> result json;
  describe : fault -> json -> string
}.

(** Modelled from the spec: the helpers [rpc_response] and [rpc_error] of
    [blueprints/rpc/utils.py] are not part of the sources at hand.  Following
    the data model, a response envelope is either [{id, result}] or
    [{id, error: {code, message}}]. *)
Inductive envelope : Type :=
| rpc_response (message_id : json) (content : json)
| rpc_error (message_id : json) (code : Z) (message : string).

Definition envelope_id (r : envelope) : json :=
  match r with
  | rpc_response message_id _ => message_id
  | rpc_error message_id _ _ => message_id
  end.

Definition envelope_error (r : envelope) : option (Z * string) :=
  match r with
  | rpc_response _ _ => None
  | rpc_error _ code message => Some (code, message)
  end.

Definition envelope_result (r : envelope) : option json :=
  match r with
  | rpc_response _ content => Some content
  | rpc_error _ _ _ => None
  end.

(** Modelled from the spec: the enumeration [RpcErrorCode] of
    [structures/types.py] is not part of the sources at hand.  The spec
    leaves its numbers symbolic, a fixed external contract, and says of the
    literal 22 of a binding failure that it is kept numerically distinct
    from the code of the InvalidParams check. *)
Definition codes_as_specified (rt : Runtime) : Prop :=
  value INVALID_PARAMS <> 22.

Section Dispatcher.
Context {rt : Runtime}.
Local Open Scope result_scope.

(** [v[key]] with a [str] key. *)
Definition getitem (v : json) (key : string) : result json :=
  match v with
  | JDict items =>
      match dict_get key items with
      | Some x => Return x
      | None => Raise (KeyError key)
      end
  | _ => Raise (TypeError (describe NotSubscriptable v))
  end.

(** [v.get(key)] *)
Definition get (v : json) (key : string) : result json :=
  match v with
  | JDict items =>
      Return (match dict_get key items with Some x => x | None => JNull end)
  | _ => Raise (AttributeError (describe (NoAttribute "get") v))
  end.

(** [s.replace("starknet_", "")] *)
Definition method_name_of (s : string) : string :=
  replace s "starknet_" "".

(** [v.replace("starknet_", "")] on the value found under ["method"]. *)
Definition strip_namespace (v : json) : result string :=
  match v with
  | JStr s => Return (method_name_of s)
  | _ => Raise (AttributeError (describe (NoAttribute "replace") v))
  end.

(** The [try] block of [parse_body]. *)
Definition read_fields (body : json) : result (string * json * json) :=
  let* m := getitem body "method" in
  let* method_name := strip_namespace m in
  let* p := get body "params" in
  let params := py_or p (JDict []) in
  let* message_id := getitem body "id" in
  Return (method_name, params, message_id).

Definition parse_body (body : json) : result (handler * json * json) :=
  let* fields :=
    try_except (read_fields body) cRuntimeError
      (fun _ => Raise (RpcError (value INVALID_REQUEST) "Invalid request")) in
  let '(method_name, params, message_id) := fields in
  match methods !! method_name with
  | None => Raise (RpcError (value METHOD_NOT_FOUND) "Method not found")
  | Some method =>
      if negb (is_list params || is_dict params)
      then Raise (RpcError (value INVALID_PARAMS) "Invalid params")
      else Return (method, params, message_id)
  end.

(** A call [h( *args, **kwargs)]: the arguments are bound first, then the
    body runs. *)
Definition invoke (h : handler) (args : list json)
    (kwargs : list (string * json)) : result json :=
  match bind_arguments h args kwargs with
  | inl description => Raise (TypeError description)
  | inr bound => run h bound
  end.

(** [method( *params) if isinstance(params, list) else method( **params)] *)
Definition apply_params (method : handler) (params : json) : result json :=
  match params with
  | JList l => invoke method l []
  | JDict d => invoke method [] d
  | _ => Raise (TypeError (describe NotAMapping params))
  end.

(** The positional and the keyword arguments such a call passes. *)
Definition positional (params : json) : list json :=
  match params with JList l => l | _ => [] end.

Definition keywords (params : json) : list (string * json) :=
  match params with JDict d => d | _ => [] end.

(** The [try] block of [base_route].  The local variable [message_id] is
    threaded through: it keeps the value it had on entry when [parse_body]
    raises, since the tuple assignment is then never reached. *)
Definition try_block (body : json) (message_id : json) : json * result json :=
  match parse_body body with
  | Raise e => (message_id, Raise e)
  | Return (method, params, message_id') =>
      (message_id', apply_params method params)
  end.

(** The [except] clauses of [base_route] and the [return] after them, on
    what the [try] block left: the value of [message_id] and the result or
    the exception. *)
Definition render (message_id : json) (r : result json) : result envelope :=
  match r with
  | Return content => Return (rpc_response message_id content)
  | Raise (TypeError msg) => Return (rpc_error message_id 22 msg)
  | Raise (RpcError code message) => Return (rpc_error message_id code message)
  | Raise e => Raise e
  end.

(** The route.  [Raise e] is an exception leaving [base_route]. *)
Definition base_route (body : json) : result envelope :=
  let message_id := JNull in
  let '(message_id, r) := try_block body message_id in
  render message_id r.

End Dispatcher.

End Routes.

(* ================================================================== *)
(** * server.py *)
(* ================================================================== *)

Module Server.
Import Routes.

(** The JSON object [handle] answers with. *)
Record fault_body : Type := {
  message : string;
  status_code : Z
}.

(** [handle(error)], registered by [@app.errorhandler(StarkException)]:
    the body and the HTTP status. *)
Definition handle (error_message : string) (error_status_code : Z)
    : fault_body * Z :=
  ({| message := error_message; status_code := error_status_code |},
   error_status_code).

(** What a POST to [/rpc] ends in. *)
Inductive reply : Type :=
| Enveloped (r : envelope)
| Fault (body : fault_body) (http_status : Z)
| Unhandled (e : exn).

(** The application around the route: an exception leaving [base_route]
    goes to the handler registered for its class, if there is one.  The only
    one registered is [handle], for [StarkException]; any other exception is
    left to the framework. *)
Definition serve_rpc {rt : Runtime} (body : json) : reply :=
  match base_route body with
  | Return r => Enveloped r
  | Raise (StarkException m s) => let '(b, st) := handle m s in Fault b st
  | Raise e => Unhandled e
  end.

End Server.

(* ================================================================== *)
(** * origin.py *)
(* ================================================================== *)

Module Origin.

(** What the methods of an origin raise: the exceptions they build, the
    [ValueError] of the interpreter and the [StarkException] of the
    validating constructor [TransactionReceipt]. *)
Inductive raised : Type :=
| StarknetDevnetException (message : string)
| NotImplementedError
| ValueError
| StarkException.

Inductive outcome (A : Type) : Type :=
| Returns (a : A)
| Raises (e : raised).
Arguments Returns {A} a.
Arguments Raises {A} e.

(** The truth value of an optional [str] argument ([None] when omitted). *)
Definition given (block_hash : option string) : bool :=
  truthy (match block_hash with Some s => JStr s | None => JNull end).

End Origin.

Module NullOrigin.
Import Origin.

Definition get_block_by_hash {A} (block_hash : string) : outcome A :=
  let message := ("Block hash not found; got: " +:+ block_hash) +:+ "." in
  Raises (StarknetDevnetException message).

Definition get_block_by_number {A} (block_number : Z) : outcome A :=
  let message :=
    "Requested the latest block, but there are no blocks so far." in
  Raises (StarknetDevnetException message).

Definition get_class_by_hash {A} (class_hash : Z) : outcome A :=
  let message :=
    ("Class with hash " +:+ hex class_hash) +:+ " is not declared" in
  Raises (StarknetDevnetException message).

Definition get_class_hash_at (contract_address : Z) : outcome Z :=
  let message :=
    ("Contract with address " +:+ hex contract_address)
    +:+ " is not deployed" in
  Raises (StarknetDevnetException message).

Definition get_storage_at (contract_address key : Z) : outcome string :=
  Returns (hex 0).

Definition get_number_of_blocks : outcome Z :=
  Returns 0.

(** Falling off the end of the function returns [None].  The f-string on
    [block_number] is [str_of_int] under the interpreter's limit. *)
Definition get_state_update (max_str_digits : nat)
    (block_hash : option string) (block_number : option Z)
    : outcome (option (list (string * json))) :=
  if given block_hash then
    let error_message :=
      "No state updates saved for the provided block hash "
      +:+ default "None" block_hash in
    Raises (StarknetDevnetException error_message)
  else
    match block_number with
    | Some n =>
        match str_of_int max_str_digits n with
        | None => Raises ValueError
        | Some digits =>
            let error_message :=
              "No state updates saved for the provided block number "
              +:+ digits in
            Raises (StarknetDevnetException error_message)
        end
    | None => Returns None
    end.

End NullOrigin.

Module ForkedOrigin.
Import Origin.

(** What the attribute [number_of_blocks] may hold: [__init__] stores the
    literal [...] there. *)
Inductive attribute : Type :=
| Ellipsis
| Int (n : Z).

Record t : Type := {
  url : string;
  number_of_blocks : attribute
}.

Definition __init__ (url : string) : t :=
  {| url := url; number_of_blocks := Ellipsis |}.

Definition get_number_of_blocks (self : t) : outcome attribute :=
  Returns (number_of_blocks self).

(** A call of one of the methods of the class, with its arguments. *)
Inductive method_call : Type :=
| GetTransactionStatus (transaction_hash : string)
| GetTransaction (transaction_hash : string)
| GetTransactionReceipt (transaction_hash : string)
| GetTransactionTrace (transaction_hash : string)
| GetBlockByHash (block_hash : string)
| GetBlockByNumber (block_number : Z)
| GetCode (contract_address : Z)
| GetFullContract (contract_address : Z)
| GetClassByHash (class_hash : Z)
| GetClassHashAt (contract_address : Z)
| GetStorageAt (contract_address key : Z)
| GetNumberOfBlocks
| GetStateUpdate (block_hash : option string) (block_number : option Z).

(** One call on the object: the object afterwards and what the call gave.
    Every method but [get_number_of_blocks] raises [NotImplementedError]
    ([get_transaction_receipt] through the base class); none assigns an
    attribute. *)
Definition perform (self : t) (c : method_call) : t * outcome attribute :=
  match c with
  | GetNumberOfBlocks => (self, get_number_of_blocks self)
  | _ => (self, Raises NotImplementedError)
  end.

(** The object after a sequence of calls. *)
Definition after (self : t) (calls : list method_call) : t :=
  fold_left (fun o c => fst (perform o c)) calls self.

End ForkedOrigin.

(* ================================================================== *)
(** * A concrete runtime *)
(* ================================================================== *)

Module Sample.
Import Routes.

(** The numbers JSON-RPC 2.0 assigns to the three error kinds. *)
Definition jsonrpc_value (c : RpcErrorCode) : Z :=
  match c with
  | INVALID_REQUEST => -32600
  | METHOD_NOT_FOUND => -32601
  | INVALID_PARAMS => -32602
  end.

(** A handler layer small enough to evaluate: [chain_id] takes no
    parameter, [get_storage_at] takes [contract_address], [key] and
    [block_id]; every other handler takes none and is not implemented. *)
Definition sample_bind (h : handler) (args : list json)
    (kwargs : list (string * json)) : string + list (string * json) :=
  match h, args, kwargs with
  | get_storage_at, [a; k; b], [] =>
      inr [("contract_address", a); ("key", k); ("block_id", b)]
  | get_storage_at, [], [("contract_address", a); ("key", k); ("block_id", b)] =>
      inr [("contract_address", a); ("key", k); ("block_id", b)]
  | get_storage_at, _, _ => inl "get_storage_at() got unexpected arguments"
  | _, [], [] => inr []
  | _, _, _ => inl "handler takes 0 positional arguments"
  end.

Definition sample_run (h : handler) (bound : list (string * json))
    : result json :=
  match h with
  | chain_id => Return (JStr "0x534e5f474f45524c49")
  | get_storage_at => Return (JStr (hex 0))
  | get_class => Raise (RpcError 28 "Class hash not found")
  | get_state_update => Raise (StarkException "No state updates" 500)
  | _ => Raise Py.NotImplementedError
  end.

Definition sample_describe (f : fault) (v : json) : string :=
  match f with
  | NotSubscriptable => "object is not subscriptable"
  | NoAttribute name => "object has no attribute " +:+ name
  | NotAMapping => "argument after ** must be a mapping"
  end.

Definition sample : Runtime := {|
  value := jsonrpc_value;
  bind_arguments := sample_bind;
  run := sample_run;
  describe := sample_describe
|}.

(** The request [{"method": m, "params": p, "id": i}]. *)
Definition request (m : string) (p i : json) : json :=
  JDict [("method", JStr m); ("params", p); ("id", i)].

(** Scenarios 1 to 3 of the specification. *)
Definition scenario1 : json := request "starknet_chainId" (JDict []) (JInt 1).
Definition scenario2 : json :=
  request "starknet_doesNotExist" (JList []) (JInt 2).
Definition scenario3 : json :=
  request "starknet_getStorageAt"
    (JList [JStr "0x1"; JStr "0x2"; JStr "latest"]) (JInt 3).

End Sample.


(* ================================================================== *)
(** * More of the interpreter: [int(s, 16)] and [str.strip()] *)
(* ================================================================== *)

Module PyStr.

(** A [string] is read as the sequence of its code points, each below 256. *)
Definition code (c : ascii) : N := N_of_ascii c.

(** White space for [int()]: tab to carriage return and the space, and the
    two code points below 256 that [int()] first turns into a space. *)
Definition int_space (c : ascii) : bool :=
  let n := code c in
  ((9 <=? n) && (n <=? 13) || (n =? 32) || (n =? 133) || (n =? 160))%N.

(** White space for [str.strip()]: [str.isspace] on one code point. *)
Definition str_space (c : ascii) : bool :=
  let n := code c in
  ((9 <=? n) && (n <=? 13) || (28 <=? n) && (n <=? 32)
   || (n =? 133) || (n =? 160))%N.

(** The value of a digit of base 16. *)
Definition hex_digit (c : ascii) : option N :=
  let n := code c in
  if ((48 <=? n) && (n <=? 57))%N then Some (n - 48)%N
  else if ((97 <=? n) && (n <=? 102))%N then Some (n - 87)%N
  else if ((65 <=? n) && (n <=? 70))%N then Some (n - 55)%N
  else None.

Fixpoint skip_space (s : string) : string :=
  match s with
  | String c rest => if int_space c then skip_space rest else s
  | EmptyString => s
  end.

(** The digits: single underscores may sit between them.  The scan stops at
    the first character that is neither; it fails on two underscores in a
    row.  It gives the value, whether the last character read was an
    underscore, and what is left. *)
Fixpoint scan_digits (s : string) (prev_underscore : bool) (acc : N)
    : option (N * bool * string) :=
  match s with
  | EmptyString => Some (acc, prev_underscore, s)
  | String c rest =>
      if Ascii.eqb c "_" then
        if prev_underscore then None else scan_digits rest true acc
      else
        match hex_digit c with
        | Some d => scan_digits rest false (acc * 16 + d)%N
        | None => Some (acc, prev_underscore, s)
        end
  end.

(** An optional sign. *)
Definition split_sign (s : string) : bool * string :=
  match s with
  | String "+" rest => (false, rest)
  | String "-" rest => (true, rest)
  | _ => (false, s)
  end.

(** The prefix [0x] or [0X], with one underscore allowed behind it. *)
Definition skip_prefix (s : string) : string :=
  match s with
  | String "0" (String x rest) =>
      if Ascii.eqb x "x" || Ascii.eqb x "X"
      then match rest with String "_" rest' => rest' | _ => rest end
      else s
  | _ => s
  end.

(** The digits and what may follow them: no leading and no trailing
    underscore, at least one character read, then white space only. *)
Definition read_digits (negative : bool) (s : string) : option Z :=
  match s with
  | String "_" _ => None
  | _ =>
      match scan_digits s false 0%N with
      | None => None
      | Some (acc, prev_underscore, rest) =>
          if prev_underscore then None
          else if Nat.eqb (String.length rest) (String.length s) then None
          else
            match skip_space rest with
            | EmptyString =>
                Some (if negative then - Z.of_N acc else Z.of_N acc)
            | _ => None
            end
      end
  end.

(** [int(s, 16)]; [None] stands for the [ValueError].  White space, a sign,
    the prefix, the digits, white space. *)
Definition int16 (s : string) : option Z :=
  let '(negative, s) := split_sign (skip_space s) in
  read_digits negative (skip_prefix s).

(** [s.lstrip()], [s.rstrip()] and [s.strip()] *)
Fixpoint lstrip (s : string) : string :=
  match s with
  | String c rest => if str_space c then lstrip rest else s
  | EmptyString => s
  end.

Fixpoint rstrip (s : string) : string :=
  match s with
  | EmptyString => EmptyString
  | String c rest =>
      match rstrip rest with
      | EmptyString => if str_space c then EmptyString else String c EmptyString
      | kept => String c kept
      end
  end.

Definition strip (s : string) : string := rstrip (lstrip s).

(** The first and the last character of a string. *)
Definition first_char (s : string) : option ascii :=
  match s with String c _ => Some c | EmptyString => None end.

Fixpoint last_char (s : string) : option ascii :=
  match s with
  | EmptyString => None
  | String c EmptyString => Some c
  | String _ rest => last_char rest
  end.

End PyStr.

(* ================================================================== *)
(** * server.py: the route [/api] *)
(* ================================================================== *)

Module Api.

(** A rule of [app.url_map]: its path, its endpoint and [list(url.methods)]. *)
Record url_rule : Type := {
  rule : string;
  endpoint : string;
  methods : list string
}.

(** The value stored under a path. *)
Record entry : Type := {
  functionName : string;
  entry_methods : list string;
  doc : string
}.

(** [app.view_functions[name].__doc__.strip()], with [view_functions] mapping
    an endpoint to the [__doc__] of its function ([None] without a
    docstring). *)
Definition stripped_doc (view_functions : gmap string (option string))
    (name : string) : result string :=
  match view_functions !! name with
  | None => Raise (KeyError name)
  | Some None =>
      Raise (AttributeError "'NoneType' object has no attribute 'strip'")
  | Some (Some d) => Return (PyStr.strip d)
  end.

(** The dict literal stored for [url], given its stripped docstring. *)
Definition make_entry (url : url_rule) (d : string) : entry :=
  {| functionName := endpoint url;
     entry_methods := methods url;
     doc := d |}.

(** The [for] loop of [api], on the rules still to visit and the dict
    [routes] built so far. *)
Fixpoint api_loop (view_functions : gmap string (option string))
    (rules : list url_rule) (routes : gmap string entry)
    : result (gmap string entry) :=
  match rules with
  | [] => Return routes
  | url :: rest =>
      if negb (String.eqb (endpoint url) "static") then
        Py.bind (stripped_doc view_functions (endpoint url)) (fun d =>
          api_loop view_functions rest
            (<[rule url := make_entry url d]> routes))
      else api_loop view_functions rest routes
  end.

(** A rule the loop passes without raising: its endpoint is ["static"], or
    its function is registered and has a docstring. *)
Definition passes (view_functions : gmap string (option string))
    (url : url_rule) : Prop :=
  endpoint url = "static" \/
  exists d, view_functions !! endpoint url = Some (Some d).

(** [api()]: the dict handed to [jsonify]. *)
Definition api (url_map : list url_rule)
    (view_functions : gmap string (option string))
    : result (gmap string entry) :=
  api_loop view_functions url_map ∅.

End Api.

(** The rules this slice shows: the route of [base_route], the route of
    [api] and the static files of the framework, with the docstrings as
    they stand in the source. *)
Module ApiSample.
Import Api.

Definition nl : string := String "010"%char EmptyString.

Definition base_route_doc : string :=
  (((nl +:+ "    Base route for RPC calls") +:+ nl) +:+ "    ").

Definition url_map : list url_rule :=
  [ {| rule := "/static/<path:filename>"; endpoint := "static";
       methods := ["GET"; "HEAD"; "OPTIONS"] |};
    {| rule := "/rpc"; endpoint := "rpc.base_route";
       methods := ["POST"; "OPTIONS"] |};
    {| rule := "/api"; endpoint := "api";
       methods := ["GET"; "HEAD"; "OPTIONS"] |} ].

Definition view_functions : gmap string (option string) :=
  <["api" := Some "Return available endpoints."]>
    (<["rpc.base_route" := Some base_route_doc]>
       (<["static" := None]> ∅)).

Definition routes : gmap string entry :=
  <["/api" := {| functionName := "api";
                 entry_methods := ["GET"; "HEAD"; "OPTIONS"];
                 doc := "Return available endpoints." |}]>
    (<["/rpc" := {| functionName := "rpc.base_route";
                    entry_methods := ["POST"; "OPTIONS"];
                    doc := "Base route for RPC calls" |}]> ∅).

(** A second rule on the path [/rpc], bound to a function without
    docstring. *)
Definition undocumented : url_rule :=
  {| rule := "/rpc"; endpoint := "rpc.legacy"; methods := ["POST"] |}.

End ApiSample.

(* ================================================================== *)
(** * origin.py: the queries of [NullOrigin] on transactions and code *)
(* ================================================================== *)

Module NullOriginTx.
Import Origin.

(** The member of [TransactionStatus] the class uses. *)
Inductive TransactionStatus : Type := NOT_RECEIVED.

Definition name (s : TransactionStatus) : string :=
  match s with NOT_RECEIVED => "NOT_RECEIVED" end.

(** The keyword arguments [get_transaction_receipt] builds the
    [TransactionReceipt] from. *)
Record TransactionReceipt : Type := {
  status : TransactionStatus;
  transaction_hash : Z;
  events : list json;
  l2_to_l1_messages : list json;
  block_hash : option json;
  block_number : option json;
  transaction_index : option json;
  execution_resources : option json;
  actual_fee : option json;
  transaction_failure_reason : option json;
  l1_to_l2_consumed_message : option json
}.

(** The modulus of the field of Starknet, the bound the constructor
    [TransactionReceipt] checks [transaction_hash] against. *)
Definition FIELD_SIZE : Z := 2 ^ 251 + 17 * 2 ^ 192 + 1.

(** What a method that starts with [int(transaction_hash, 16)] ends in: a
    [ValueError] of the interpreter ([int] on a malformed hash, or the
    f-string on a number beyond the digit limit), or what the rest of the
    method does. *)
Inductive parsed (A : Type) : Type :=
| ValueError
| Parsed (r : outcome A).
Arguments ValueError {A}.
Arguments Parsed {A} r.

Definition get_transaction_status (transaction_hash : string) : outcome json :=
  Returns (JDict [("tx_status", JStr (name NOT_RECEIVED))]).

(** [TransactionReceipt(...)] validates its fields: a [transaction_hash]
    outside [0 <= n < FIELD_SIZE] makes it raise a [StarkException]. *)
Definition get_transaction_receipt (transaction_hash : string)
    : parsed TransactionReceipt :=
  match PyStr.int16 transaction_hash with
  | None => ValueError
  | Some n =>
      if Z.leb 0 n && Z.ltb n FIELD_SIZE then
        Parsed (Returns
          {| status := NOT_RECEIVED;
             transaction_hash := n;
             events := [];
             l2_to_l1_messages := [];
             block_hash := None;
             block_number := None;
             transaction_index := None;
             execution_resources := None;
             actual_fee := None;
             transaction_failure_reason := None;
             l1_to_l2_consumed_message := None |})
      else Parsed (Raises StarkException)
  end.

Definition get_transaction_trace {A} (max_str_digits : nat)
    (transaction_hash : string) : parsed A :=
  match PyStr.int16 transaction_hash with
  | None => ValueError
  | Some tx_hash_int =>
      match str_of_int max_str_digits tx_hash_int with
      | None => ValueError
      | Some digits =>
          let message :=
            ("Transaction corresponding to hash " +:+ digits)
            +:+ " is not found." in
          Parsed (Raises (StarknetDevnetException message))
      end
  end.

Definition get_code (contract_address : Z) : outcome json :=
  Returns (JDict [("abi", JDict []); ("bytecode", JList [])]).

Definition get_full_contract (contract_address : Z) : outcome json :=
  Returns (JDict [("abi", JDict []); ("entry_points_by_type", JDict []);
                  ("program", JDict [])]).

End NullOriginTx.

(* ================================================================== *)
(** * Properties of the dispatcher *)
(* ================================================================== *)

Import Routes Server.

Section DispatcherFacts.
Context {rt : Runtime}.

(** ** The registry *)

Lemma methods_keys_NoDup : NoDup (methods_items.*1).
Proof. apply (bool_decide_unpack _). vm_compute. reflexivity. Qed.

Lemma methods_lookup_items (m : string) (h : handler) :
  methods !! m = Some h <-> (m, h) ∈ methods_items.
Proof.
  unfold methods. symmetry.
  apply elem_of_list_to_map, methods_keys_NoDup.
Qed.

Lemma methods_size : size methods = 23%nat.
Proof. vm_compute. reflexivity. Qed.

(** ** Reading the fields *)

(** The [try] block of [parse_body] on an object whose ["method"] is a
    string and which has an ["id"]. *)
Lemma read_fields_object items name i :
  dict_get "method" items = Some (JStr name) ->
  dict_get "id" items = Some i ->
  read_fields (JDict items) =
    Return (method_name_of name,
            py_or (default JNull (dict_get "params" items)) (JDict []), i).
Proof.
  intros Hm Hi. unfold read_fields; cbn.
  rewrite Hm; cbn. rewrite Hi; cbn.
  destruct (dict_get "params" items); reflexivity.
Qed.

(** No statement of that block raises a [RuntimeError]: the [except] clause
    of [parse_body] never fires. *)
Lemma read_fields_no_RuntimeError body e :
  read_fields body = Raise e -> isinstance e cRuntimeError = false.
Proof.
  unfold read_fields, Py.bind, getitem, strip_namespace, get.
  destruct body as [| | | | |l|items]; try (intros [= <-]; reflexivity).
  destruct (dict_get "method" items) as [m|]; [|intros [= <-]; reflexivity].
  destruct m; try (intros [= <-]; reflexivity).
  destruct (dict_get "id" items); [discriminate|intros [= <-]; reflexivity].
Qed.

Lemma parse_body_except_dead body h :
  try_except (read_fields body) cRuntimeError h = read_fields body.
Proof.
  destruct (read_fields body) as [x|e] eqn:E; [reflexivity|].
  unfold try_except. now rewrite (read_fields_no_RuntimeError _ _ E).
Qed.

(** What [parse_body] returns determines the request it was given. *)
Lemma parse_body_Return_inv body h params i :
  parse_body body = Return (h, params, i) ->
  exists items name,
    body = JDict items /\
    dict_get "method" items = Some (JStr name) /\
    dict_get "id" items = Some i /\
    methods !! method_name_of name = Some h /\
    params = py_or (default JNull (dict_get "params" items)) (JDict []) /\
    (is_list params || is_dict params) = true.
Proof.
  unfold parse_body. rewrite parse_body_except_dead.
  destruct body as [| | | | |l|items]; try discriminate.
  unfold read_fields, Py.bind, getitem, strip_namespace, get.
  destruct (dict_get "method" items) as [m|] eqn:Hm; [|discriminate].
  destruct m as [| | | |name| |]; try discriminate.
  destruct (dict_get "id" items) as [i'|] eqn:Hi; [|discriminate].
  destruct (methods !! method_name_of name) as [h'|] eqn:Hh; [|discriminate].
  destruct (is_list _ || is_dict _) eqn:Hp; cbn; [|discriminate].
  intros [= <- <- <-]. exists items, name. repeat split; auto.
Qed.

Lemma parse_body_object items name h i :
  dict_get "method" items = Some (JStr name) ->
  dict_get "id" items = Some i ->
  methods !! method_name_of name = Some h ->
  let params := py_or (default JNull (dict_get "params" items)) (JDict []) in
  parse_body (JDict items) =
    if is_list params || is_dict params
    then Return (h, params, i)
    else Raise (RpcError (value INVALID_PARAMS) "Invalid params").
Proof.
  intros Hm Hi Hh params. unfold parse_body.
  rewrite parse_body_except_dead, (read_fields_object _ _ _ Hm Hi).
  cbv beta iota delta [Py.bind]. rewrite Hh. fold params.
  destruct (is_list params || is_dict params); reflexivity.
Qed.

Lemma parse_body_unregistered items name i :
  dict_get "method" items = Some (JStr name) ->
  dict_get "id" items = Some i ->
  methods !! method_name_of name = None ->
  parse_body (JDict items) =
    Raise (RpcError (value METHOD_NOT_FOUND) "Method not found").
Proof.
  intros Hm Hi Hh. unfold parse_body.
  rewrite parse_body_except_dead, (read_fields_object _ _ _ Hm Hi).
  cbv beta iota delta [Py.bind]. now rewrite Hh.
Qed.

(** ** The route *)

Lemma base_route_parsed body h params i :
  parse_body body = Return (h, params, i) ->
  base_route body = render i (apply_params h params).
Proof. intros H. unfold base_route, try_block. now rewrite H. Qed.

Lemma base_route_parse_raises body e :
  parse_body body = Raise e ->
  base_route body = render JNull (Raise e).
Proof. intros H. unfold base_route, try_block. now rewrite H. Qed.

(** Whatever [render] answers carries the [message_id] it was given. *)
Lemma render_id message_id r env :
  render message_id r = Return env -> envelope_id env = message_id.
Proof.
  destruct r as [c|[]]; cbn; intros [= <-]; reflexivity.
Qed.

(** Once [parse_body] has returned, the response carries the request's
    ["id"]. *)
Lemma base_route_echoes_id_when_parsed body h params i env :
  parse_body body = Return (h, params, i) ->
  base_route body = Return env ->
  envelope_id env = i.
Proof.
  intros Hp. rewrite (base_route_parsed _ _ _ _ Hp). apply render_id.
Qed.

(** When [parse_body] raises, the response (if any) has a null id. *)
Lemma base_route_null_id_when_parse_raises body e env :
  parse_body body = Raise e ->
  base_route body = Return env ->
  envelope_id env = JNull.
Proof.
  intros Hp. rewrite (base_route_parse_raises _ _ Hp). apply render_id.
Qed.

End DispatcherFacts.

(* ------------------------------------------------------------------ *)
(** ** Envelope fields: ["id"] and ["method"] *)
(* ------------------------------------------------------------------ *)

Section Envelope.
Context {rt : Runtime}.

Lemma base_route_missing_method items :
  dict_get "method" items = None ->
  base_route (JDict items) = Raise (KeyError "method").
Proof.
  intros Hm. apply eq_trans with (render JNull (Raise (KeyError "method")));
    [|reflexivity].
  apply base_route_parse_raises.
  unfold parse_body. rewrite parse_body_except_dead.
  unfold read_fields, Py.bind, getitem. now rewrite Hm.
Qed.

Lemma base_route_missing_id items name :
  dict_get "method" items = Some (JStr name) ->
  dict_get "id" items = None ->
  base_route (JDict items) = Raise (KeyError "id").
Proof.
  intros Hm Hi. apply eq_trans with (render JNull (Raise (KeyError "id")));
    [|reflexivity].
  apply base_route_parse_raises.
  unfold parse_body. rewrite parse_body_except_dead.
  unfold read_fields, Py.bind, getitem, strip_namespace, get.
  now rewrite Hm, Hi.
Qed.

Lemma base_route_not_an_object body :
  is_dict body = false ->
  base_route body =
    Return (rpc_error JNull 22 (describe NotSubscriptable body)).
Proof.
  intros Hd.
  apply eq_trans with
    (render JNull (Raise (TypeError (describe NotSubscriptable body))));
    [|reflexivity].
  apply base_route_parse_raises.
  unfold parse_body. rewrite parse_body_except_dead.
  destruct body; try discriminate; reflexivity.
Qed.

(** C1 (the code departs from it).  The response to a request is to carry
    the request's ["id"].  For a request whose method is unknown it does
    not: whatever the ["params"] and the ["id"] of
    [{"method": "starknet_unknown", "params": p, "id": i}], the answer is
    the "Method not found" error with a null id, because [parse_body] raises
    before [base_route] assigns [message_id]. *)
Theorem base_route_drops_id_of_unknown_method (p i : json) :
  base_route
    (JDict [("method", JStr "starknet_unknown"); ("params", p); ("id", i)])
  = Return (rpc_error JNull (value METHOD_NOT_FOUND) "Method not found").
Proof.
  apply eq_trans with
    (render JNull
       (Raise (RpcError (value METHOD_NOT_FOUND) "Method not found")));
    [|reflexivity].
  apply base_route_parse_raises.
  apply parse_body_unregistered with (name := "starknet_unknown") (i := i);
    [reflexivity|reflexivity|vm_compute; reflexivity].
Qed.

(** C2 (the code departs from it).  A body without ["method"] or without
    ["id"], or a body that is no object, is to be answered with
    InvalidRequest.  In the code the missing key raises a [KeyError] that
    leaves [base_route] (the clause [except RuntimeError] of [parse_body]
    does not catch it), and a body that is no object is answered with code
    22 and the interpreter's text. *)
Theorem base_route_missing_field_not_invalid_request
    (name : string) (p i : json) :
  base_route (JDict [("params", p); ("id", i)]) = Raise (KeyError "method")
  /\ base_route (JDict [("method", JStr name); ("params", p)])
     = Raise (KeyError "id")
  /\ forall body,
       match body with
       | JDict _ => True
       | _ => base_route body
              = Return (rpc_error JNull 22 (describe NotSubscriptable body))
       end.
Proof.
  split; [|split].
  - apply base_route_missing_method. reflexivity.
  - apply base_route_missing_id with (name := name); reflexivity.
  - intros body. destruct body; try exact I;
      apply base_route_not_an_object; reflexivity.
Qed.

(** C6 (as amended).  The registry has 23 names.  For every request object
    with a string ["method"] and an ["id"] whose method, once every
    occurrence of ["starknet_"] is deleted from it, is not a key of
    [methods], the response is an error envelope with the code of
    [METHOD_NOT_FOUND] and the message "Method not found". *)
Theorem unregistered_method_not_found items name i :
  dict_get "method" items = Some (JStr name) ->
  dict_get "id" items = Some i ->
  methods !! method_name_of name = None ->
  size methods = 23%nat /\
  exists env,
    base_route (JDict items) = Return env /\
    envelope_error env = Some (value METHOD_NOT_FOUND, "Method not found").
Proof.
  intros Hm Hi Hn. split; [apply methods_size|].
  rewrite (base_route_parse_raises _ _ (parse_body_unregistered _ _ _ Hm Hi Hn)).
  eexists; split; reflexivity.
Qed.

End Envelope.

(** The registry has 23 names, not 22.  The method string
    ["chainstarknet_Id"] has no prefix to strip and is no registered name,
    yet it resolves to the handler of ["chainId"], which answers.  And at
    scenario 2 of the specification the id [2] is at hand, yet the response
    carries a null id. *)
Lemma method_not_found_departures :
  size methods <> 22%nat /\
  (methods !! "chainstarknet_Id" = None /\
   base_route (rt := Sample.sample)
     (Sample.request "chainstarknet_Id" (JDict []) (JInt 1))
   = Return (rpc_response (JInt 1) (JStr "0x534e5f474f45524c49"))) /\
  (getitem (rt := Sample.sample) Sample.scenario2 "id" = Return (JInt 2) /\
   base_route (rt := Sample.sample) Sample.scenario2
   = Return (rpc_error JNull (-32601) "Method not found")).
Proof.
  split; [rewrite methods_size; discriminate|].
  repeat split; vm_compute; reflexivity.
Qed.

Lemma unregistered_method_not_found_witness :
  size methods = 23%nat /\
  exists env,
    base_route (rt := Sample.sample) Sample.scenario2 = Return env /\
    envelope_error env = Some (-32601, "Method not found").
Proof.
  apply (unregistered_method_not_found (rt := Sample.sample)
           [("method", JStr "starknet_doesNotExist");
            ("params", JList []); ("id", JInt 2)]
           "starknet_doesNotExist" (JInt 2));
    [reflexivity|reflexivity|vm_compute; reflexivity].
Defined.

(* ------------------------------------------------------------------ *)
(** ** Parameters and their binding *)
(* ------------------------------------------------------------------ *)

Section Params.
Context {rt : Runtime}.

Lemma apply_params_invoke h params :
  (is_list params || is_dict params) = true ->
  apply_params h params = invoke h (positional params) (keywords params).
Proof. destruct params; try discriminate; reflexivity. Qed.

(** Any falsy ["params"] is replaced by the empty dict. *)
Lemma falsy_params_normalised items name h i p :
  dict_get "method" items = Some (JStr name) ->
  methods !! method_name_of name = Some h ->
  dict_get "id" items = Some i ->
  dict_get "params" items = Some p ->
  truthy p = false ->
  parse_body (JDict items) = Return (h, JDict [], i).
Proof.
  intros Hm Hh Hi Hp Hf.
  rewrite (parse_body_object _ _ _ _ Hm Hi Hh), Hp. cbn.
  unfold py_or. now rewrite Hf.
Qed.

(** C4 (as amended).  For a request object with a string ["method"] that
    resolves to a handler [h] and with an ["id"]: an array under ["params"]
    is passed to [h] as its positional arguments, an object as its keyword
    arguments, an absent or null ["params"] becomes the empty mapping, and a
    truthy string, number or bool (non-empty, non-zero, [true]) is answered
    with the InvalidParams error. *)
Theorem params_binding_by_shape items name h i :
  dict_get "method" items = Some (JStr name) ->
  methods !! method_name_of name = Some h ->
  dict_get "id" items = Some i ->
  match dict_get "params" items with
  | Some (JList l) => base_route (JDict items) = render i (invoke h l [])
  | Some (JDict d) => base_route (JDict items) = render i (invoke h [] d)
  | None | Some JNull =>
      parse_body (JDict items) = Return (h, JDict [], i) /\
      base_route (JDict items) = render i (invoke h [] [])
  | Some p =>
      truthy p = true ->
      exists env,
        base_route (JDict items) = Return env /\
        envelope_error env = Some (value INVALID_PARAMS, "Invalid params")
  end.
Proof.
  intros Hm Hh Hi.
  pose proof (parse_body_object _ _ _ _ Hm Hi Hh) as Hp. cbv zeta in Hp.
  destruct (dict_get "params" items) as [p|] eqn:Ep;
    change (default JNull (Some p)) with p in Hp ||
    change (default JNull (@None json)) with JNull in Hp.
  - destruct p as [|b|z|f|s|l|d];
      try (intros Ht; unfold py_or in Hp; rewrite Ht in Hp;
           rewrite (base_route_parse_raises _ _ Hp);
           eexists; split; reflexivity).
    + split; [exact Hp|]. now rewrite (base_route_parsed _ _ _ _ Hp).
    + destruct l; rewrite (base_route_parsed _ _ _ _ Hp); reflexivity.
    + destruct d; rewrite (base_route_parsed _ _ _ _ Hp); reflexivity.
  - split; [exact Hp|]. now rewrite (base_route_parsed _ _ _ _ Hp).
Qed.

(** C5.  For a request that [parse_body] resolves to a handler [h] (so its
    ["params"] passed the shape check), a failure of the interpreter to bind
    the arguments to the parameters of [h] is answered with the request's
    id, the literal code 22 and the description of the failure as message.
    With the numbers of [RpcErrorCode] as the spec has them, that code is
    not the one of the shape check: no request the shape check rejects is
    answered with code 22. *)
Theorem binding_failure_code_22 body h params i description :
  parse_body body = Return (h, params, i) ->
  bind_arguments h (positional params) (keywords params) = inl description ->
  ((is_list params || is_dict params) = true /\
   base_route body = Return (rpc_error i 22 description)) /\
  (codes_as_specified rt ->
   forall body' env',
     parse_body body'
     = Raise (RpcError (value INVALID_PARAMS) "Invalid params") ->
     base_route body' = Return env' ->
     exists code,
       envelope_error env' = Some (code, "Invalid params") /\ code <> 22).
Proof.
  intros Hp Hb.
  destruct (parse_body_Return_inv _ _ _ _ Hp)
    as (items & name & _ & _ & _ & _ & _ & Hshape).
  split; [split; [exact Hshape|]|].
  - rewrite (base_route_parsed _ _ _ _ Hp), (apply_params_invoke _ _ Hshape).
    unfold invoke. now rewrite Hb.
  - intros Hcodes body' env' Hp' Hr'.
    rewrite (base_route_parse_raises _ _ Hp') in Hr'.
    injection Hr' as <-. exists (value INVALID_PARAMS).
    split; [reflexivity|exact Hcodes].
Qed.

(** C3 (as amended).  Let [parse_body] resolve the request to [h] and let
    the call of [h] raise [e].  An [RpcError] is answered inside the
    envelope with its own code and message; a [TypeError] with code 22; any
    other exception leaves [base_route].  Of those, a [StarkException] is
    rendered by [handle] as the bare [{message, status_code}] object with
    its status; an exception of any other class finds no registered handler
    and is left to the framework. *)
Theorem base_route_handler_exception body h params i e :
  parse_body body = Return (h, params, i) ->
  apply_params h params = Raise e ->
  match e with
  | RpcError code msg =>
      base_route body = Return (rpc_error i code msg) /\
      serve_rpc body = Enveloped (rpc_error i code msg)
  | TypeError msg =>
      base_route body = Return (rpc_error i 22 msg)
  | StarkException m s =>
      base_route body = Raise e /\
      serve_rpc body = Fault {| message := m; status_code := s |} s
  | _ =>
      base_route body = Raise e /\ serve_rpc body = Unhandled e
  end.
Proof.
  intros Hp He.
  pose proof (base_route_parsed _ _ _ _ Hp) as Hb. rewrite He in Hb.
  unfold serve_rpc. rewrite Hb.
  destruct e; cbn; auto.
Qed.

End Params.

(** A registered handler called with [false] (or [0], or the empty string)
    under ["params"] is run without arguments and answers with a result; and
    a string under ["params"] next to an unknown method is answered with
    "Method not found". *)
Lemma falsy_scalar_params_accepted :
  base_route (rt := Sample.sample)
    (Sample.request "starknet_chainId" (JBool false) (JInt 1))
    = Return (rpc_response (JInt 1) (JStr "0x534e5f474f45524c49"))
  /\ base_route (rt := Sample.sample)
       (Sample.request "starknet_chainId" (JInt 0) (JInt 1))
    = Return (rpc_response (JInt 1) (JStr "0x534e5f474f45524c49"))
  /\ base_route (rt := Sample.sample)
       (Sample.request "starknet_chainId" (JStr "") (JInt 1))
    = Return (rpc_response (JInt 1) (JStr "0x534e5f474f45524c49"))
  /\ base_route (rt := Sample.sample)
       (Sample.request "starknet_doesNotExist" (JStr "abc") (JInt 1))
    = Return (rpc_error JNull (-32601) "Method not found").
Proof. repeat split; vm_compute; reflexivity. Qed.

(** A handler that raises [NotImplementedError], as the methods of
    [ForkedOrigin] do: the exception leaves [base_route] and [handle] is not
    the one to render it. *)
Lemma unexpected_fault_not_rendered :
  base_route (rt := Sample.sample)
    (Sample.request "starknet_blockNumber" (JList []) (JInt 7))
  = Raise Py.NotImplementedError /\
  serve_rpc (rt := Sample.sample)
    (Sample.request "starknet_blockNumber" (JList []) (JInt 7))
  = Unhandled Py.NotImplementedError /\
  forall b s,
    serve_rpc (rt := Sample.sample)
      (Sample.request "starknet_blockNumber" (JList []) (JInt 7))
    <> Fault b s.
Proof.
  repeat split; try (vm_compute; reflexivity).
  intros b s. vm_compute. discriminate.
Qed.

Lemma params_binding_by_shape_witness :
  base_route (rt := Sample.sample) Sample.scenario3
    = render (JInt 3)
        (invoke (rt := Sample.sample) get_storage_at
           [JStr "0x1"; JStr "0x2"; JStr "latest"] [])
  /\ exists env,
       base_route (rt := Sample.sample)
         (Sample.request "starknet_getStorageAt" (JBool true) (JInt 3))
         = Return env /\
       envelope_error env = Some (-32602, "Invalid params").
Proof.
  split.
  - apply (params_binding_by_shape (rt := Sample.sample)
             [("method", JStr "starknet_getStorageAt");
              ("params", JList [JStr "0x1"; JStr "0x2"; JStr "latest"]);
              ("id", JInt 3)]
             "starknet_getStorageAt" get_storage_at (JInt 3));
      [reflexivity|vm_compute; reflexivity|reflexivity].
  - apply (params_binding_by_shape (rt := Sample.sample)
             [("method", JStr "starknet_getStorageAt");
              ("params", JBool true); ("id", JInt 3)]
             "starknet_getStorageAt" get_storage_at (JInt 3));
      [reflexivity|vm_compute; reflexivity|reflexivity|reflexivity].
Defined.

Lemma binding_failure_code_22_witness :
  ((is_list (JList [JStr "0x1"]) || is_dict (JList [JStr "0x1"])) = true /\
   base_route (rt := Sample.sample)
     (Sample.request "starknet_getStorageAt" (JList [JStr "0x1"]) (JInt 3))
   = Return (rpc_error (JInt 3) 22
               "get_storage_at() got unexpected arguments")) /\
  exists code,
    envelope_error (rpc_error JNull (-32602) "Invalid params")
    = Some (code, "Invalid params") /\ code <> 22.
Proof.
  destruct (binding_failure_code_22 (rt := Sample.sample)
              (Sample.request "starknet_getStorageAt" (JList [JStr "0x1"])
                 (JInt 3))
              get_storage_at (JList [JStr "0x1"]) (JInt 3)
              "get_storage_at() got unexpected arguments"
              eq_refl eq_refl) as [Hcode Hdistinct].
  split; [exact Hcode|].
  apply (Hdistinct
           ltac:(discriminate)
           (Sample.request "starknet_getStorageAt" (JBool true) (JInt 3))
           (rpc_error JNull (-32602) "Invalid params"));
    vm_compute; reflexivity.
Defined.

Lemma base_route_handler_exception_witness :
  base_route (rt := Sample.sample)
    (Sample.request "starknet_getStateUpdate" (JDict []) (JInt 4))
    = Raise (StarkException "No state updates" 500) /\
  serve_rpc (rt := Sample.sample)
    (Sample.request "starknet_getStateUpdate" (JDict []) (JInt 4))
    = Fault {| message := "No state updates"; status_code := 500 |} 500.
Proof.
  apply (base_route_handler_exception (rt := Sample.sample)
           (Sample.request "starknet_getStateUpdate" (JDict []) (JInt 4))
           get_state_update (JDict []) (JInt 4)
           (StarkException "No state updates" 500));
    vm_compute; reflexivity.
Defined.

(** With the numbers of JSON-RPC 2.0, the code of a binding failure is not
    the code of the shape check. *)
Remark binding_failure_code_is_not_jsonrpc_invalid_params :
  Sample.jsonrpc_value INVALID_PARAMS <> 22.
Proof. discriminate. Qed.

(* ------------------------------------------------------------------ *)
(** ** Resolving method names *)
(* ------------------------------------------------------------------ *)

Section Names.
Context {rt : Runtime}.

(** A leading ["starknet_"] is dropped and the scan goes on behind it. *)
Lemma method_name_of_prefixed s :
  method_name_of ("starknet_" +:+ s) = method_name_of s.
Proof. destruct s; reflexivity. Qed.

(** Only the resolved name of ["method"] matters to [parse_body]. *)
Lemma parse_body_same_name a b rest :
  method_name_of a = method_name_of b ->
  parse_body (JDict (("method", JStr a) :: rest))
  = parse_body (JDict (("method", JStr b) :: rest)).
Proof.
  intros H. unfold parse_body, read_fields, getitem, get, strip_namespace.
  simpl dict_get. cbv beta iota delta [Py.bind]. rewrite H. reflexivity.
Qed.

End Names.

(** Case analysis on a registered name: one goal per item of [methods]. *)
Ltac each_method H :=
  apply methods_lookup_items in H; unfold methods_items in H;
  repeat (apply elem_of_cons in H; destruct H as [H|H];
          [injection H as -> ->|]);
  [..|apply elem_of_nil in H; contradiction].

(** No registered name contains ["starknet_"], and putting ["starknet_"]
    anywhere into one gives a name that resolves back to it. *)
Lemma registered_name_with_namespace m h :
  methods !! m = Some h ->
  method_name_of m = m /\
  forall n, method_name_of (insert_at n "starknet_" m) = m.
Proof.
  intros H. each_method H;
    (split; [reflexivity|];
     intros n; do 32 (destruct n as [|n]; [reflexivity|]); reflexivity).
Qed.

(** C10.  For a registered name [m] with handler [h], the method strings
    [m] and ["starknet_" + m] resolve to [h], and [parse_body] gives the
    same on two requests that differ only in that; so does [m] with
    ["starknet_"] put in at any offset, since [replace] deletes the
    occurrences wherever they are and not a leading prefix only. *)
Theorem namespace_prefix_optional {rt : Runtime} m h :
  methods !! m = Some h ->
  methods !! method_name_of m = Some h /\
  methods !! method_name_of ("starknet_" +:+ m) = Some h /\
  (forall n, methods !! method_name_of (insert_at n "starknet_" m) = Some h) /\
  forall rest,
    parse_body (JDict (("method", JStr ("starknet_" +:+ m)) :: rest))
    = parse_body (JDict (("method", JStr m) :: rest)).
Proof.
  intros H.
  destruct (registered_name_with_namespace _ _ H) as [Hm Hn].
  rewrite method_name_of_prefixed, Hm. repeat split; auto.
  - intros n. now rewrite Hn.
  - intros rest. apply parse_body_same_name, method_name_of_prefixed.
Qed.

Lemma namespace_prefix_optional_witness :
  methods !! method_name_of "chainId" = Some chain_id /\
  methods !! method_name_of "starknet_chainId" = Some chain_id /\
  (forall n,
     methods !! method_name_of (insert_at n "starknet_" "chainId")
     = Some chain_id) /\
  forall rest,
    parse_body (rt := Sample.sample)
      (JDict (("method", JStr "starknet_chainId") :: rest))
    = parse_body (rt := Sample.sample)
        (JDict (("method", JStr "chainId") :: rest)).
Proof.
  apply (namespace_prefix_optional (rt := Sample.sample) "chainId" chain_id).
  vm_compute; reflexivity.
Defined.

(** An occurrence in the middle of the method string is deleted too. *)
Example inner_namespace_resolves :
  methods !! method_name_of "getstarknet_Class" = Some get_class.
Proof. vm_compute; reflexivity. Qed.

(* ================================================================== *)
(** * Properties of the origins *)
(* ================================================================== *)

Section Origins.
Import Origin.

(** [if block_hash:] holds for a non-empty string only. *)
Lemma given_Some s : given (Some s) = true <-> s <> "".
Proof.
  unfold given; cbn. destruct (String.eqb_spec s ""); cbn; split;
    congruence.
Qed.

(** [str_of_int] within and beyond the limit of the interpreter. *)
Lemma str_of_int_within m n :
  within_limit m n -> str_of_int m n = Some (decimal n).
Proof.
  unfold str_of_int. intros [->|H]; [reflexivity|].
  apply Nat.ltb_ge in H. rewrite H. now rewrite andb_false_r.
Qed.

Lemma str_of_int_beyond m n :
  ~ within_limit m n -> str_of_int m n = None.
Proof.
  unfold str_of_int, within_limit. intros H.
  assert (0 < m)%nat as H0 by lia.
  assert (m < String.length (decimal (Z.abs n)))%nat as H1 by lia.
  apply Nat.ltb_lt in H0, H1. now rewrite H0, H1.
Qed.

(** C7 (as amended).  [NullOrigin.get_state_update]: with a block hash
    requested (a non-empty string) it raises a [StarknetDevnetException]
    whose message ends in that hash, whether or not a block number is given
    too; with no block hash (absent or empty) and a block number whose
    decimal form is within the digit limit of the interpreter it raises one
    whose message ends in that number; with neither it returns [None] and
    raises nothing. *)
Theorem null_get_state_update (max_str_digits : nat) (block_hash : string)
    (n : Z) :
  block_hash <> "" ->
  within_limit max_str_digits n ->
  (forall block_number,
     NullOrigin.get_state_update max_str_digits (Some block_hash) block_number
     = Raises (StarknetDevnetException
                 ("No state updates saved for the provided block hash "
                  +:+ block_hash)))
  /\ NullOrigin.get_state_update max_str_digits None (Some n)
     = Raises (StarknetDevnetException
                 ("No state updates saved for the provided block number "
                  +:+ decimal n))
  /\ NullOrigin.get_state_update max_str_digits None None = Returns None
  /\ (forall block_number,
        NullOrigin.get_state_update max_str_digits (Some "") block_number
        = NullOrigin.get_state_update max_str_digits None block_number).
Proof.
  intros Hne Hfit. repeat split; try reflexivity.
  - intros block_number. unfold NullOrigin.get_state_update.
    apply given_Some in Hne. now rewrite Hne.
  - unfold NullOrigin.get_state_update. cbn [given truthy].
    now rewrite (str_of_int_within _ _ Hfit).
Qed.

Lemma null_get_state_update_witness :
  (forall block_number,
     NullOrigin.get_state_update default_max_str_digits (Some "0xabc")
       block_number
     = Raises (StarknetDevnetException
                 "No state updates saved for the provided block hash 0xabc"))
  /\ NullOrigin.get_state_update default_max_str_digits None (Some 3)
     = Raises (StarknetDevnetException
                 "No state updates saved for the provided block number 3")
  /\ NullOrigin.get_state_update default_max_str_digits None None
     = Returns None
  /\ (forall block_number,
        NullOrigin.get_state_update default_max_str_digits (Some "")
          block_number
        = NullOrigin.get_state_update default_max_str_digits None
            block_number).
Proof.
  apply (null_get_state_update default_max_str_digits "0xabc" 3).
  - discriminate.
  - right. vm_compute. lia.
Defined.

(** With a block hash and a block number both requested, the message names
    the hash and not the number; and a block number of 4301 digits is
    answered, under the default limit, with the [ValueError] of the
    f-string and not with the not-found exception. *)
Lemma null_get_state_update_number_not_named :
  NullOrigin.get_state_update default_max_str_digits (Some "0xabc") (Some 3)
  = Raises (StarknetDevnetException
              "No state updates saved for the provided block hash 0xabc")
  /\ NullOrigin.get_state_update default_max_str_digits (Some "0xabc")
       (Some 3)
     <> Raises (StarknetDevnetException
                  "No state updates saved for the provided block number 3")
  /\ NullOrigin.get_state_update default_max_str_digits None
       (Some (10 ^ 4300))
     = Raises Origin.ValueError.
Proof.
  split; [reflexivity|]. split; [discriminate|].
  vm_compute. reflexivity.
Qed.

(** C9.  [NullOrigin.get_storage_at] returns ["0x0"] for every contract
    address and every key. *)
Theorem null_get_storage_at_zero (contract_address key : Z) :
  NullOrigin.get_storage_at contract_address key = Returns "0x0".
Proof. reflexivity. Qed.

(** No method of [ForkedOrigin] changes the object. *)
Lemma forked_perform_keeps self c : fst (ForkedOrigin.perform self c) = self.
Proof. destruct c; reflexivity. Qed.

Lemma forked_after_keeps self calls : ForkedOrigin.after self calls = self.
Proof.
  unfold ForkedOrigin.after. revert self.
  induction calls as [|c calls IH]; intros self; cbn [fold_left].
  - reflexivity.
  - rewrite forked_perform_keeps. apply IH.
Qed.

(** C8 (as amended).  [get_number_of_blocks] returns what the attribute
    [number_of_blocks] of the object holds, and no call of a method of the
    class changes it: after any sequence of calls, and after any further
    calls, it returns the same value.  For an object fresh from
    [ForkedOrigin(url)] that value is the literal [...] the constructor
    stores, not a block count. *)
Theorem forked_get_number_of_blocks_reads_attribute (self : ForkedOrigin.t)
    (url : string) (calls more : list ForkedOrigin.method_call) :
  ForkedOrigin.get_number_of_blocks (ForkedOrigin.after self calls)
  = Returns (ForkedOrigin.number_of_blocks self)
  /\ ForkedOrigin.get_number_of_blocks
       (ForkedOrigin.after (ForkedOrigin.after self calls) more)
     = ForkedOrigin.get_number_of_blocks (ForkedOrigin.after self calls)
  /\ ForkedOrigin.get_number_of_blocks
       (ForkedOrigin.after (ForkedOrigin.__init__ url) calls)
     = Returns ForkedOrigin.Ellipsis.
Proof.
  rewrite !forked_after_keeps. repeat split; reflexivity.
Qed.

(** What [get_number_of_blocks] returns on a constructed origin is the
    placeholder, never a count. *)
Lemma forked_caches_no_block_count :
  ForkedOrigin.get_number_of_blocks
    (ForkedOrigin.__init__ "https://alpha4.starknet.io")
  = Returns ForkedOrigin.Ellipsis
  /\ forall n,
       ForkedOrigin.get_number_of_blocks
         (ForkedOrigin.__init__ "https://alpha4.starknet.io")
       <> Returns (ForkedOrigin.Int n).
Proof. split; [reflexivity|discriminate]. Qed.

Remark forked_init_stores_ellipsis url :
  ForkedOrigin.number_of_blocks (ForkedOrigin.__init__ url)
  = ForkedOrigin.Ellipsis.
Proof. reflexivity. Qed.

End Origins.

(* ================================================================== *)
(** * Properties of [int(s, 16)], [hex] and [str.strip()] *)
(* ================================================================== *)

Section Interpreter.
Import PyStr.

Lemma scan_digits_step c k rest prev acc :
  hex_digit c = Some k ->
  scan_digits (String c rest) prev acc
  = scan_digits rest false (acc * 16 + k)%N.
Proof.
  intros H. cbn [scan_digits].
  destruct (Ascii.eqb_spec c "_") as [->|_]; [discriminate|].
  now rewrite H.
Qed.

Lemma scan_digits_uint_pos d : forall a prev,
  scan_digits (NilEmpty.string_of_uint d) prev (Npos a)
  = Some (Npos (Pos.of_hex_uint_acc d a),
          match d with Hexadecimal.Nil => prev | _ => false end,
          EmptyString).
Proof.
  induction d; intros a prev;
    cbn [NilEmpty.string_of_uint Pos.of_hex_uint_acc];
    [reflexivity|..];
    (erewrite scan_digits_step by reflexivity;
     match goal with
     | |- scan_digits _ _ ?x = Some (Npos (Pos.of_hex_uint_acc _ ?y), _, _) =>
         replace x with (Npos y) by (cbn; f_equal; lia)
     end;
     rewrite IHd; destruct d; reflexivity).
Qed.

Lemma scan_digits_uint d : forall prev,
  scan_digits (NilEmpty.string_of_uint d) prev 0%N
  = Some (Pos.of_hex_uint d,
          match d with Hexadecimal.Nil => prev | _ => false end,
          EmptyString).
Proof.
  induction d; intros prev;
    cbn [NilEmpty.string_of_uint Pos.of_hex_uint];
    [reflexivity|..];
    erewrite scan_digits_step by reflexivity.
  1: { change (0 * 16 + 0)%N with 0%N. rewrite IHd.
       destruct d; reflexivity. }
  all: match goal with
         | |- scan_digits _ _ ?x = Some (Npos (Pos.of_hex_uint_acc _ ?y), _, _)
           => change x with (Npos y)
         end; rewrite scan_digits_uint_pos; destruct d; reflexivity.
Qed.

(** The digits [hex] prints are read back as the number. *)
Lemma read_digits_to_hex_uint negative p :
  read_digits negative (NilEmpty.string_of_uint (Pos.to_hex_uint p))
  = Some (if negative then Zneg p else Zpos p).
Proof.
  pose proof (HexadecimalPos.Unsigned.of_to p) as Hp.
  unfold read_digits.
  rewrite scan_digits_uint, Hp.
  destruct (Pos.to_hex_uint p) eqn:E; [discriminate Hp|..];
    cbn [NilEmpty.string_of_uint]; destruct negative; reflexivity.
Qed.

Lemma to_hex_uint_not_Nil p : Pos.to_hex_uint p <> Hexadecimal.Nil.
Proof.
  intros E. pose proof (HexadecimalPos.Unsigned.of_to p) as Hp.
  rewrite E in Hp. discriminate.
Qed.

Lemma int16_0x c k rest :
  hex_digit c = Some k ->
  int16 (String "0" (String "x" (String c rest)))
  = read_digits false (String c rest)
  /\ int16 (String "-" (String "0" (String "x" (String c rest))))
    = read_digits true (String c rest).
Proof.
  intros H.
  assert (c <> "_"%char) as Hc by (intros ->; discriminate).
  unfold int16, skip_prefix.
  split; cbv -[read_digits];
    destruct c as [[] [] [] [] [] [] [] []]; try reflexivity;
    contradiction Hc; reflexivity.
Qed.

(** [int(hex(n), 16) == n] *)
Lemma int16_hex n : int16 (hex n) = Some n.
Proof.
  destruct n as [|p|p]; [reflexivity|..];
    unfold hex, hex_digits, NilZero.string_of_uint;
    pose proof (to_hex_uint_not_Nil p) as Hn;
    pose proof (read_digits_to_hex_uint false p) as Hf;
    pose proof (read_digits_to_hex_uint true p) as Ht;
    destruct (Pos.to_hex_uint p) eqn:E; try contradiction;
    cbn [NilEmpty.string_of_uint] in *;
    cbv [Z.ltb Z.compare String.append];
    match goal with
    | |- int16 (String "0"%char (String "x"%char (String ?c ?r))) = _ =>
        rewrite <- Hf; refine (proj1 (int16_0x c _ r _)); reflexivity
    | |- int16 (String "-"%char
                  (String "0"%char (String "x"%char (String ?c ?r)))) = _ =>
        rewrite <- Ht; refine (proj2 (int16_0x c _ r _)); reflexivity
    end.
Qed.

Lemma hex_inj a b : hex a = hex b -> a = b.
Proof.
  intros H. pose proof (int16_hex a) as Ha. rewrite H, int16_hex in Ha.
  now injection Ha.
Qed.

Lemma append_length s t :
  String.length (s +:+ t) = (String.length s + String.length t)%nat.
Proof.
  induction s as [|a s IH]; [reflexivity|].
  change (S (String.length (s +:+ t))
          = S (String.length s + String.length t)).
  now rewrite IH.
Qed.

Lemma append_inj_r t : forall s1 s2, s1 +:+ t = s2 +:+ t -> s1 = s2.
Proof.
  induction s1 as [|c s1 IH]; intros [|c' s2] H.
  - reflexivity.
  - apply (f_equal String.length) in H. rewrite !append_length in H.
    cbn [String.length] in H. lia.
  - apply (f_equal String.length) in H. rewrite !append_length in H.
    cbn [String.length] in H. lia.
  - change (String c (s1 +:+ t) = String c' (s2 +:+ t)) in H.
    injection H as -> H. f_equal. now apply IH.
Qed.

(** ** [str.strip()] *)

Lemma lstrip_first s c :
  first_char (lstrip s) = Some c -> str_space c = false.
Proof.
  induction s as [|a s IH]; cbn [lstrip]; [discriminate|].
  destruct (str_space a) eqn:E; [exact IH|].
  cbn. now intros [= <-].
Qed.

Lemma rstrip_last s c :
  last_char (rstrip s) = Some c -> str_space c = false.
Proof.
  induction s as [|a s IH]; cbn [rstrip]; [discriminate|].
  destruct (rstrip s) as [|b kept] eqn:E.
  - destruct (str_space a) eqn:Ea; [discriminate|].
    cbn. now intros [= <-].
  - intros H. apply IH. exact H.
Qed.

Lemma rstrip_first s c :
  first_char s = Some c -> str_space c = false ->
  first_char (rstrip s) = Some c.
Proof.
  destruct s as [|a s]; [discriminate|]. cbn [first_char rstrip].
  intros [= ->] Hc. destruct (rstrip s); [now rewrite Hc|reflexivity].
Qed.

Lemma rstrip_first_inv s c :
  first_char (rstrip s) = Some c -> first_char s = Some c.
Proof.
  destruct s as [|a s]; [discriminate|]. cbn [first_char rstrip].
  destruct (rstrip s); [destruct (str_space a); [discriminate|]|];
    now intros [= <-].
Qed.

(** What [strip] returns neither starts nor ends with white space. *)
Lemma strip_no_outer_space s c :
  first_char (strip s) = Some c \/ last_char (strip s) = Some c ->
  str_space c = false.
Proof.
  unfold strip. intros [H|H].
  - apply rstrip_first_inv in H. now apply lstrip_first in H.
  - now apply rstrip_last in H.
Qed.

Lemma lstrip_fixed s :
  (forall c, first_char s = Some c -> str_space c = false) -> lstrip s = s.
Proof.
  destruct s as [|a s]; [reflexivity|]. intros H. cbn [lstrip].
  now rewrite (H a eq_refl).
Qed.

Lemma rstrip_fixed s :
  (forall c, last_char s = Some c -> str_space c = false) -> rstrip s = s.
Proof.
  induction s as [|a s IH]; [reflexivity|]. intros H. cbn [rstrip].
  destruct s as [|b s].
  - cbn. now rewrite (H a eq_refl).
  - rewrite IH; [reflexivity|]. intros c Hc. apply H. exact Hc.
Qed.

Lemma strip_idempotent s : strip (strip s) = strip s.
Proof.
  unfold strip at 1.
  rewrite lstrip_fixed, rstrip_fixed; [reflexivity|..];
    intros c Hc; apply (strip_no_outer_space s); auto.
Qed.

End Interpreter.

(* ================================================================== *)
(** * Properties of the route [/api] *)
(* ================================================================== *)

Section ApiFacts.
Import PyStr Api.
Variable view_functions : gmap string (option string).

Lemma api_loop_static url rest routes :
  endpoint url = "static" ->
  api_loop view_functions (url :: rest) routes
  = api_loop view_functions rest routes.
Proof. intros H. cbn [api_loop]. now rewrite H. Qed.

Lemma api_loop_listed url rest routes d :
  endpoint url <> "static" ->
  view_functions !! endpoint url = Some (Some d) ->
  api_loop view_functions (url :: rest) routes
  = api_loop view_functions rest
      (<[rule url := make_entry url (strip d)]> routes).
Proof.
  intros Hs Hd. cbn [api_loop].
  apply String.eqb_neq in Hs. rewrite Hs. cbn [negb].
  unfold stripped_doc. now rewrite Hd.
Qed.

(** One step of the loop, by cases. *)
Lemma api_loop_step url rest routes :
  (endpoint url = "static" /\
   api_loop view_functions (url :: rest) routes
   = api_loop view_functions rest routes)
  \/ (endpoint url <> "static" /\ exists d,
        view_functions !! endpoint url = Some (Some d) /\
        api_loop view_functions (url :: rest) routes
        = api_loop view_functions rest
            (<[rule url := make_entry url (strip d)]> routes))
  \/ (endpoint url <> "static" /\ ~ passes view_functions url /\ exists e,
        api_loop view_functions (url :: rest) routes = Raise e /\
        stripped_doc view_functions (endpoint url) = Raise e).
Proof.
  destruct (String.eqb_spec (endpoint url) "static") as [Hs|Hs].
  - left. split; [exact Hs|now apply api_loop_static].
  - right. destruct (view_functions !! endpoint url) as [[d|]|] eqn:Hd.
    + left. split; [exact Hs|]. exists d. split; [reflexivity|].
      now apply api_loop_listed.
    + right. split; [exact Hs|]. split.
      * intros [H|[d H]]; [contradiction|congruence].
      * eexists. cbn [api_loop]. apply String.eqb_neq in Hs. rewrite Hs.
        unfold stripped_doc. rewrite Hd. split; reflexivity.
    + right. split; [exact Hs|]. split.
      * intros [H|[d H]]; [contradiction|congruence].
      * eexists. cbn [api_loop]. apply String.eqb_neq in Hs. rewrite Hs.
        unfold stripped_doc. rewrite Hd. split; reflexivity.
Qed.

Lemma api_loop_sound rules : forall routes0 routes r e,
  api_loop view_functions rules routes0 = Return routes ->
  routes !! r = Some e ->
  routes0 !! r = Some e \/
  exists url d,
    url ∈ rules /\ rule url = r /\ endpoint url <> "static" /\
    view_functions !! endpoint url = Some (Some d) /\
    e = make_entry url (strip d).
Proof.
  induction rules as [|url rest IH]; intros routes0 routes r e Hrun Hr.
  - injection Hrun as <-. now left.
  - destruct (api_loop_step url rest routes0)
      as [[Hs E]|[(Hs & d & Hd & E)|(Hs & _ & x & E & _)]];
      rewrite E in Hrun; [| |discriminate].
    + destruct (IH _ _ _ _ Hrun Hr) as [H|(u & d & Hu & H)]; [now left|].
      right. exists u, d. split; [now apply list_elem_of_further|exact H].
    + destruct (IH _ _ _ _ Hrun Hr) as [H|(u & d' & Hu & H)].
      * destruct (decide (rule url = r)) as [<-|Hne].
        -- rewrite lookup_insert_eq in H. injection H as <-.
           right. exists url, d. repeat split; auto. apply list_elem_of_here.
        -- rewrite lookup_insert_ne in H by exact Hne. now left.
      * right. exists u, d'. split; [now apply list_elem_of_further|exact H].
Qed.

Lemma api_loop_keys_kept rules : forall routes0 routes r,
  api_loop view_functions rules routes0 = Return routes ->
  is_Some (routes0 !! r) -> is_Some (routes !! r).
Proof.
  induction rules as [|url rest IH]; intros routes0 routes r Hrun Hr.
  - now injection Hrun as <-.
  - destruct (api_loop_step url rest routes0)
      as [[Hs E]|[(Hs & d & Hd & E)|(Hs & _ & x & E & _)]];
      rewrite E in Hrun; [| |discriminate].
    + eapply IH; eauto.
    + eapply IH; [exact Hrun|].
      destruct (decide (rule url = r)) as [<-|Hne].
      * rewrite lookup_insert_eq. eauto.
      * now rewrite lookup_insert_ne.
Qed.

Lemma api_loop_complete rules : forall routes0 routes url,
  api_loop view_functions rules routes0 = Return routes ->
  url ∈ rules -> endpoint url <> "static" ->
  is_Some (routes !! rule url).
Proof.
  induction rules as [|u rest IH]; intros routes0 routes url Hrun Hin Hns.
  - now apply elem_of_nil in Hin.
  - apply elem_of_cons in Hin.
    destruct (api_loop_step u rest routes0)
      as [[Hs E]|[(Hs & d & Hd & E)|(Hs & _ & x & E & _)]];
      rewrite E in Hrun; [| |discriminate].
    + destruct Hin as [->|Hin]; [contradiction|]. eapply IH; eauto.
    + destruct Hin as [->|Hin]; [|eapply IH; eauto].
      eapply api_loop_keys_kept; [exact Hrun|].
      rewrite lookup_insert_eq. eauto.
Qed.

Lemma api_loop_returns_iff rules : forall routes0,
  (exists routes, api_loop view_functions rules routes0 = Return routes)
  <-> Forall (passes view_functions) rules.
Proof.
  induction rules as [|url rest IH]; intros routes0.
  - split; [constructor|]. intros _. now exists routes0.
  - destruct (api_loop_step url rest routes0)
      as [[Hs E]|[(Hs & d & Hd & E)|(Hs & Hn & x & E & _)]];
      rewrite E.
    + rewrite IH. split.
      * intros H. constructor; [now left|exact H].
      * intros H. now apply Forall_cons in H as [_ H].
    + rewrite IH. split.
      * intros H. constructor; [right; eauto|exact H].
      * intros H. now apply Forall_cons in H as [_ H].
    + split.
      * intros [routes H]. discriminate.
      * intros H. apply Forall_cons in H as [H _]. contradiction.
Qed.

Lemma api_loop_app pre : forall post routes0,
  api_loop view_functions (pre ++ post)%list routes0
  = Py.bind (api_loop view_functions pre routes0)
      (api_loop view_functions post).
Proof.
  induction pre as [|url pre IH]; intros post routes0; [reflexivity|].
  change ((url :: pre) ++ post)%list with (url :: (pre ++ post)%list).
  destruct (api_loop_step url (pre ++ post)%list routes0)
    as [[Hs E]|[(Hs & d & Hd & E)|(Hs & _ & x & E & Hx)]]; rewrite E.
  - rewrite (api_loop_static _ _ _ Hs). apply IH.
  - rewrite (api_loop_listed _ _ _ _ Hs Hd). apply IH.
  - cbn [api_loop]. apply String.eqb_neq in Hs. rewrite Hs, Hx. reflexivity.
Qed.

(** Rules behind [url] that do not write to path [r] leave its entry. *)
Lemma api_loop_untouched rules r : forall routes0 routes,
  Forall (fun u => endpoint u = "static" \/ rule u <> r) rules ->
  api_loop view_functions rules routes0 = Return routes ->
  routes !! r = routes0 !! r.
Proof.
  induction rules as [|u rest IH]; intros routes0 routes Hall Hrun.
  - now injection Hrun as <-.
  - apply Forall_cons in Hall as [Hu Hall].
    destruct (api_loop_step u rest routes0)
      as [[Hs E]|[(Hs & d & Hd & E)|(Hs & _ & x & E & _)]];
      rewrite E in Hrun; [| |discriminate].
    + eapply IH; eauto.
    + rewrite (IH _ _ Hall Hrun).
      destruct Hu as [Hu|Hu]; [contradiction|].
      now rewrite lookup_insert_ne.
Qed.

End ApiFacts.

Section ApiTheorems.
Import PyStr Api.

(** X10. every entry [api] lists comes from a rule of the map whose endpoint
    is not ["static"]: it carries that endpoint, the methods of the rule and
    the docstring of the view function stripped of outer white space. *)
Theorem api_lists_only_documented_rules view_functions url_map routes r e :
  api url_map view_functions = Return routes ->
  routes !! r = Some e ->
  exists url d,
    url ∈ url_map /\ rule url = r /\ endpoint url <> "static" /\
    view_functions !! endpoint url = Some (Some d) /\
    e = make_entry url (strip d) /\
    forall c,
      first_char (doc e) = Some c \/ last_char (doc e) = Some c ->
      str_space c = false.
Proof.
  intros Hrun Hr.
  destruct (api_loop_sound _ _ _ _ _ _ Hrun Hr) as [H|(url & d & H1 & H2 & H3 & H4 & ->)].
  - now rewrite lookup_empty in H.
  - exists url, d. repeat split; auto.
    intros c Hc. now apply (strip_no_outer_space d).
Qed.

Lemma api_sample_runs :
  api ApiSample.url_map ApiSample.view_functions = Return ApiSample.routes.
Proof. vm_compute. reflexivity. Qed.

Lemma api_lists_only_documented_rules_witness :
  exists url d,
    url ∈ ApiSample.url_map /\ rule url = "/rpc" /\
    endpoint url <> "static" /\
    ApiSample.view_functions !! endpoint url = Some (Some d) /\
    {| functionName := "rpc.base_route";
       entry_methods := ["POST"; "OPTIONS"];
       doc := "Base route for RPC calls" |} = make_entry url (strip d) /\
    forall c,
      first_char "Base route for RPC calls" = Some c \/
      last_char "Base route for RPC calls" = Some c ->
      str_space c = false.
Proof.
  apply (api_lists_only_documented_rules ApiSample.view_functions
           ApiSample.url_map ApiSample.routes "/rpc"
           {| functionName := "rpc.base_route";
              entry_methods := ["POST"; "OPTIONS"];
              doc := "Base route for RPC calls" |});
    vm_compute; reflexivity.
Defined.

(** X11. when [api] returns, every rule whose endpoint is not ["static"] has
    its path among the keys. *)
Theorem api_lists_every_rule view_functions url_map routes url :
  api url_map view_functions = Return routes ->
  url ∈ url_map ->
  endpoint url <> "static" ->
  is_Some (routes !! rule url).
Proof.
  intros Hrun Hin Hs. exact (api_loop_complete _ _ _ _ _ Hrun Hin Hs).
Qed.

Lemma api_lists_every_rule_witness :
  is_Some (ApiSample.routes !! "/api").
Proof.
  apply (api_lists_every_rule ApiSample.view_functions ApiSample.url_map
           ApiSample.routes
           {| rule := "/api"; endpoint := "api";
              methods := ["GET"; "HEAD"; "OPTIONS"] |}).
  - vm_compute; reflexivity.
  - do 2 apply list_elem_of_further. apply list_elem_of_here.
  - discriminate.
Defined.

(** X12. [api] returns exactly when every rule other than the static one is
    bound to a registered function that has a docstring. *)
Theorem api_returns_iff_documented view_functions url_map :
  (exists routes, api url_map view_functions = Return routes)
  <-> Forall (passes view_functions) url_map.
Proof. apply api_loop_returns_iff. Qed.

(** X13. the first rule bound to a function without docstring makes [api]
    raise the [AttributeError] of [None.strip()], whatever the rules
    behind it. *)
Theorem api_undocumented_view_raises view_functions pre url post :
  Forall (passes view_functions) pre ->
  endpoint url <> "static" ->
  view_functions !! endpoint url = Some None ->
  api (pre ++ url :: post)%list view_functions
  = Raise (AttributeError "'NoneType' object has no attribute 'strip'").
Proof.
  intros Hpre Hs Hd. unfold api. rewrite api_loop_app.
  apply (api_loop_returns_iff view_functions pre ∅) in Hpre
    as [routes ->].
  cbn [Py.bind api_loop]. apply String.eqb_neq in Hs. rewrite Hs.
  unfold stripped_doc. now rewrite Hd.
Qed.

Lemma api_undocumented_view_raises_witness :
  api (ApiSample.url_map ++ ApiSample.undocumented :: ApiSample.url_map)%list
    (<["rpc.legacy" := None]> ApiSample.view_functions)
  = Raise (AttributeError "'NoneType' object has no attribute 'strip'").
Proof.
  apply (api_undocumented_view_raises
           (<["rpc.legacy" := None]> ApiSample.view_functions)
           ApiSample.url_map ApiSample.undocumented ApiSample.url_map).
  - constructor; [left; reflexivity|].
    constructor; [right; eexists; vm_compute; reflexivity|].
    constructor; [right; eexists; vm_compute; reflexivity|].
    constructor.
  - discriminate.
  - vm_compute; reflexivity.
Defined.

(** X14. of several rules on one path the last one is the one listed. *)
Theorem api_last_rule_wins view_functions pre url post routes d :
  api (pre ++ url :: post)%list view_functions = Return routes ->
  endpoint url <> "static" ->
  view_functions !! endpoint url = Some (Some d) ->
  Forall (fun u => endpoint u = "static" \/ rule u <> rule url) post ->
  routes !! rule url = Some (make_entry url (strip d)).
Proof.
  intros Hrun Hs Hd Hpost. unfold api in Hrun.
  rewrite api_loop_app in Hrun.
  destruct (api_loop view_functions pre ∅) as [routes1|x]; [|discriminate].
  cbn [Py.bind] in Hrun.
  rewrite (api_loop_listed _ _ _ _ _ Hs Hd) in Hrun.
  rewrite (api_loop_untouched _ _ _ _ _ Hpost Hrun).
  apply lookup_insert_eq.
Qed.

Lemma api_last_rule_wins_witness :
  ApiSample.routes !! "/rpc"
  = Some {| functionName := "rpc.base_route";
            entry_methods := ["POST"; "OPTIONS"];
            doc := "Base route for RPC calls" |}.
Proof.
  apply (api_last_rule_wins ApiSample.view_functions
           [ {| rule := "/static/<path:filename>"; endpoint := "static";
                methods := ["GET"; "HEAD"; "OPTIONS"] |} ]
           {| rule := "/rpc"; endpoint := "rpc.base_route";
              methods := ["POST"; "OPTIONS"] |}
           [ {| rule := "/api"; endpoint := "api";
                methods := ["GET"; "HEAD"; "OPTIONS"] |} ]
           ApiSample.routes ApiSample.base_route_doc).
  - vm_compute; reflexivity.
  - discriminate.
  - vm_compute; reflexivity.
  - constructor; [right; discriminate|constructor].
Defined.

End ApiTheorems.

(* ================================================================== *)
(** * More on the dispatcher *)
(* ================================================================== *)

Section DispatcherMore.
Context {rt : Runtime}.

(** X1. no [TypeError] and no [RpcError] ever leaves [base_route], whatever
    the request and whatever the handler does. *)
Theorem base_route_never_raises_caught_classes body e :
  base_route body = Raise e ->
  isinstance e cTypeError = false /\ isinstance e cRpcError = false.
Proof.
  unfold base_route. destruct (try_block body JNull) as [message_id r].
  destruct r as [content|[]]; cbn; intros [= <-]; split; reflexivity.
Qed.

Lemma parse_body_raise_cases body e :
  parse_body body = Raise e ->
  e = TypeError (describe NotSubscriptable body)
  \/ e = KeyError "method"
  \/ e = KeyError "id"
  \/ (exists v, e = AttributeError (describe (NoAttribute "replace") v))
  \/ e = RpcError (value METHOD_NOT_FOUND) "Method not found"
  \/ e = RpcError (value INVALID_PARAMS) "Invalid params".
Proof.
  intros H.
  unfold parse_body in H. rewrite parse_body_except_dead in H.
  unfold read_fields, Py.bind, getitem, strip_namespace, get in H.
  destruct body as [| | | | |l|items];
    try (injection H as <-; left; reflexivity).
  destruct (dict_get "method" items) as [m|];
    [|injection H as <-; right; left; reflexivity].
  destruct m as [| | | |name| |];
    try (injection H as <-; do 3 right; left; eexists; reflexivity).
  destruct (dict_get "id" items) as [i|];
    [|injection H as <-; do 2 right; left; reflexivity].
  destruct (methods !! method_name_of name);
    [|injection H as <-; do 4 right; left; reflexivity].
  destruct (negb _); [|discriminate].
  injection H as <-. do 5 right. reflexivity.
Qed.

(** X2. the exceptions of [parse_body].  It raises nothing but the
    [TypeError] of subscripting a body that is no dict, the [KeyError] of a
    missing ["method"] or ["id"], the [AttributeError] of a ["method"] that
    is no string, and the two [RpcError]s "Method not found" and "Invalid
    params"; never one with the message "Invalid request". *)
Theorem parse_body_raises_only body e :
  parse_body body = Raise e ->
  (e = TypeError (describe NotSubscriptable body)
   \/ e = KeyError "method"
   \/ e = KeyError "id"
   \/ (exists v, e = AttributeError (describe (NoAttribute "replace") v))
   \/ e = RpcError (value METHOD_NOT_FOUND) "Method not found"
   \/ e = RpcError (value INVALID_PARAMS) "Invalid params")
  /\ forall code, e <> RpcError code "Invalid request".
Proof.
  intros H. pose proof (parse_body_raise_cases _ _ H) as Hcases.
  split; [exact Hcases|].
  intros code ->.
  destruct Hcases as [H1|[H1|[H1|[[v H1]|[H1|H1]]]]]; discriminate H1.
Qed.

(** X3. the id of a response is the ["id"] of the request or null, nothing
    else. *)
Theorem base_route_id_is_request_id_or_null body env :
  base_route body = Return env ->
  envelope_id env = JNull \/
  exists items,
    body = JDict items /\ dict_get "id" items = Some (envelope_id env).
Proof.
  intros H. destruct (parse_body body) as [[[h params] i]|e] eqn:Hp.
  - right.
    destruct (parse_body_Return_inv _ _ _ _ Hp)
      as (items & name & -> & _ & Hi & _).
    exists items. split; [reflexivity|].
    now rewrite (base_route_echoes_id_when_parsed _ _ _ _ _ Hp H).
  - left. exact (base_route_null_id_when_parse_raises _ _ _ Hp H).
Qed.

(** X4. a result envelope is given exactly when [parse_body] returns and the
    call of the handler returns; it carries the request's id and what the
    handler returned. *)
Theorem base_route_result_iff body message_id content :
  base_route body = Return (rpc_response message_id content)
  <-> exists h params,
        parse_body body = Return (h, params, message_id) /\
        apply_params h params = Return content.
Proof.
  split.
  - intros H. destruct (parse_body body) as [[[h params] i]|e] eqn:Hp.
    + rewrite (base_route_parsed _ _ _ _ Hp) in H.
      exists h, params.
      destruct (apply_params h params) as [c|[]]; cbn in H;
        try discriminate.
      now injection H as -> ->.
    + rewrite (base_route_parse_raises _ _ Hp) in H.
      destruct e; discriminate.
  - intros (h & params & Hp & Hc).
    now rewrite (base_route_parsed _ _ _ _ Hp), Hc.
Qed.

(** X5. a ["method"] that is no string makes the [AttributeError] of
    [.replace] leave [base_route]; no response is given. *)
Theorem base_route_method_not_a_string items v :
  dict_get "method" items = Some v ->
  (forall s, v <> JStr s) ->
  base_route (JDict items)
  = Raise (AttributeError (describe (NoAttribute "replace") v)).
Proof.
  intros Hm Hv.
  apply eq_trans with
    (render JNull
       (Raise (AttributeError (describe (NoAttribute "replace") v))));
    [|reflexivity].
  apply base_route_parse_raises.
  unfold parse_body. rewrite parse_body_except_dead.
  unfold read_fields, Py.bind, getitem, strip_namespace. rewrite Hm.
  destruct v; try reflexivity. now contradiction (Hv s).
Qed.

(** X6. falsy ["params"] ([false], [0], [0.0], the empty string, the empty
    array or object, null) run the handler without any argument. *)
Theorem falsy_params_run_without_arguments items name h i p :
  dict_get "method" items = Some (JStr name) ->
  methods !! method_name_of name = Some h ->
  dict_get "id" items = Some i ->
  dict_get "params" items = Some p ->
  truthy p = false ->
  base_route (JDict items) = render i (invoke h [] []).
Proof.
  intros Hm Hh Hi Hp Hf.
  now rewrite (base_route_parsed _ _ _ _
                 (falsy_params_normalised _ _ _ _ _ Hm Hh Hi Hp Hf)).
Qed.

(** X7. the bare [{message, status_code}] object is given only for a
    [StarkException] raised by the call of a resolved handler; its message
    and status are the exception's, and the HTTP status equals the
    [status_code] in the body. *)
Theorem serve_rpc_fault_inv body b s :
  serve_rpc body = Fault b s ->
  status_code b = s /\
  exists h params i,
    parse_body body = Return (h, params, i) /\
    apply_params h params = Raise (StarkException (message b) s).
Proof.
  unfold serve_rpc. intros H.
  destruct (base_route body) as [env|e] eqn:Hb; [discriminate|].
  destruct e; try discriminate. cbn in H. injection H as <- <-.
  split; [reflexivity|]. cbn [message].
  destruct (parse_body body) as [[[h params] i]|e] eqn:Hp.
  - exists h, params, i. split; [reflexivity|].
    rewrite (base_route_parsed _ _ _ _ Hp) in Hb.
    destruct (apply_params h params) as [c|[]]; cbn in Hb;
      try discriminate. now injection Hb as -> ->.
  - rewrite (base_route_parse_raises _ _ Hp) in Hb.
    destruct (parse_body_raise_cases _ _ Hp)
      as [H1|[H1|[H1|[[v H1]|[H1|H1]]]]]; subst e;
      discriminate Hb.
Qed.

End DispatcherMore.

Lemma base_route_never_raises_caught_classes_witness :
  isinstance (KeyError "method") cTypeError = false /\
  isinstance (KeyError "method") cRpcError = false.
Proof.
  apply (base_route_never_raises_caught_classes (rt := Sample.sample)
           (JDict [("id", JInt 1)]) (KeyError "method")).
  vm_compute; reflexivity.
Defined.

Lemma parse_body_raises_only_witness :
  (RpcError (-32601) "Method not found"
     = TypeError (describe (Runtime := Sample.sample) NotSubscriptable
                    Sample.scenario2)
   \/ RpcError (-32601) "Method not found" = KeyError "method"
   \/ RpcError (-32601) "Method not found" = KeyError "id"
   \/ (exists v,
         RpcError (-32601) "Method not found"
         = AttributeError
             (describe (Runtime := Sample.sample) (NoAttribute "replace") v))
   \/ RpcError (-32601) "Method not found"
      = RpcError (-32601) "Method not found"
   \/ RpcError (-32601) "Method not found"
      = RpcError (-32602) "Invalid params")
  /\ forall code,
       RpcError (-32601) "Method not found" <> RpcError code "Invalid request".
Proof.
  apply (parse_body_raises_only (rt := Sample.sample) Sample.scenario2
           (RpcError (-32601) "Method not found")).
  vm_compute; reflexivity.
Defined.

Lemma base_route_id_is_request_id_or_null_witness :
  JInt 1 = JNull \/
  exists items,
    Sample.scenario1 = JDict items /\ dict_get "id" items = Some (JInt 1).
Proof.
  apply (base_route_id_is_request_id_or_null (rt := Sample.sample)
           Sample.scenario1
           (rpc_response (JInt 1) (JStr "0x534e5f474f45524c49"))).
  vm_compute; reflexivity.
Defined.

Lemma base_route_method_not_a_string_witness :
  base_route (rt := Sample.sample)
    (JDict [("method", JInt 5); ("id", JInt 1)])
  = Raise (AttributeError "object has no attribute replace").
Proof.
  apply (base_route_method_not_a_string (rt := Sample.sample)
           [("method", JInt 5); ("id", JInt 1)] (JInt 5));
    [reflexivity|discriminate].
Defined.

Lemma falsy_params_run_without_arguments_witness :
  base_route (rt := Sample.sample)
    (Sample.request "starknet_chainId" (JInt 0) (JInt 1))
  = render (JInt 1) (invoke (rt := Sample.sample) chain_id [] []).
Proof.
  apply (falsy_params_run_without_arguments (rt := Sample.sample)
           [("method", JStr "starknet_chainId"); ("params", JInt 0);
            ("id", JInt 1)]
           "starknet_chainId" chain_id (JInt 1) (JInt 0));
    vm_compute; reflexivity.
Defined.

Lemma serve_rpc_fault_inv_witness :
  500 = 500 /\
  exists h params i,
    parse_body (rt := Sample.sample)
      (Sample.request "starknet_getStateUpdate" (JDict []) (JInt 4))
    = Return (h, params, i) /\
    apply_params (rt := Sample.sample) h params
    = Raise (StarkException "No state updates" 500).
Proof.
  apply (serve_rpc_fault_inv (rt := Sample.sample)
           (Sample.request "starknet_getStateUpdate" (JDict []) (JInt 4))
           {| message := "No state updates"; status_code := 500 |} 500).
  vm_compute; reflexivity.
Defined.

(* ================================================================== *)
(** * More on [NullOrigin] *)
(* ================================================================== *)

Section NullOriginMore.
Import Origin PyStr NullOriginTx.

(** X15. for a hash [n] of the field, [0 <= n < FIELD_SIZE],
    [get_transaction_receipt(hex(n))] returns a receipt whose
    [transaction_hash] is [n], with the status [NOT_RECEIVED], no events, no
    messages and every optional field [None]; for any other [n] the
    constructor of the receipt raises its [StarkException]. *)
Theorem null_receipt_round_trips_hex (n : Z) :
  (0 <= n < FIELD_SIZE ->
   get_transaction_receipt (hex n)
   = Parsed (Returns
       {| status := NOT_RECEIVED;
          transaction_hash := n;
          events := [];
          l2_to_l1_messages := [];
          block_hash := None;
          block_number := None;
          transaction_index := None;
          execution_resources := None;
          actual_fee := None;
          transaction_failure_reason := None;
          l1_to_l2_consumed_message := None |}))
  /\ (~ 0 <= n < FIELD_SIZE ->
      get_transaction_receipt (hex n) = Parsed (Raises Origin.StarkException)).
Proof.
  unfold get_transaction_receipt. rewrite int16_hex.
  split; intros H.
  - assert (Z.leb 0 n && Z.ltb n FIELD_SIZE = true) as ->; [|reflexivity].
    apply andb_true_iff. split; [apply Z.leb_le|apply Z.ltb_lt]; lia.
  - assert (Z.leb 0 n && Z.ltb n FIELD_SIZE = false) as ->; [|reflexivity].
    apply andb_false_iff.
    destruct (Z.leb_spec 0 n); [right|left; reflexivity].
    apply Z.ltb_ge. lia.
Qed.

Lemma null_receipt_round_trips_hex_witness :
  get_transaction_receipt "0xff"
  = Parsed (Returns
      {| status := NOT_RECEIVED;
         transaction_hash := 255;
         events := [];
         l2_to_l1_messages := [];
         block_hash := None;
         block_number := None;
         transaction_index := None;
         execution_resources := None;
         actual_fee := None;
         transaction_failure_reason := None;
         l1_to_l2_consumed_message := None |})
  /\ get_transaction_receipt "-0x1" = Parsed (Raises Origin.StarkException).
Proof.
  split.
  - apply (proj1 (null_receipt_round_trips_hex 255)).
    split; [lia|reflexivity].
  - apply (proj2 (null_receipt_round_trips_hex (-1))). lia.
Defined.

(** X16. for a hash [n] whose decimal form is within the digit limit of the
    interpreter, [get_transaction_trace(hex(n))] raises the not-found
    exception and its message gives the hash in decimal; beyond the limit
    the f-string raises its [ValueError]. *)
Theorem null_trace_names_hash_in_decimal (A : Type) (max_str_digits : nat)
    (n : Z) :
  (within_limit max_str_digits n ->
   @get_transaction_trace A max_str_digits (hex n)
   = Parsed (Raises (StarknetDevnetException
       (("Transaction corresponding to hash " +:+ decimal n)
        +:+ " is not found."))))
  /\ (~ within_limit max_str_digits n ->
      @get_transaction_trace A max_str_digits (hex n) = ValueError).
Proof.
  unfold get_transaction_trace. rewrite int16_hex.
  split; intros H.
  - now rewrite (str_of_int_within _ _ H).
  - now rewrite (str_of_int_beyond _ _ H).
Qed.

Lemma null_trace_names_hash_in_decimal_witness :
  @get_transaction_trace unit default_max_str_digits "0xff"
  = Parsed (Raises (StarknetDevnetException
      "Transaction corresponding to hash 255 is not found.")).
Proof.
  apply (proj1 (null_trace_names_hash_in_decimal unit
                  default_max_str_digits 255)).
  right. vm_compute. lia.
Defined.

Lemma int16_blank s : skip_space s = "" -> int16 s = None.
Proof. intros H. unfold int16. now rewrite H. Qed.

(** X17. a transaction hash that is empty or all white space makes
    [get_transaction_receipt] and [get_transaction_trace] end in the
    [ValueError] of [int], not in the devnet's own exception. *)
Theorem null_blank_hash_is_value_error (A : Type) (max_str_digits : nat)
    (transaction_hash : string) :
  skip_space transaction_hash = "" ->
  get_transaction_receipt transaction_hash = ValueError /\
  @get_transaction_trace A max_str_digits transaction_hash = ValueError.
Proof.
  intros H. unfold get_transaction_receipt, get_transaction_trace.
  now rewrite (int16_blank _ H).
Qed.

Lemma null_blank_hash_is_value_error_witness :
  get_transaction_receipt "  " = ValueError /\
  @get_transaction_trace unit default_max_str_digits "  " = ValueError.
Proof.
  apply (null_blank_hash_is_value_error unit default_max_str_digits "  ").
  reflexivity.
Defined.

(** X18. the not-found messages of [NullOrigin] tell the identifiers apart:
    two class hashes, two contract addresses or two block hashes with the
    same exception are the same. *)
Theorem null_not_found_identifies (A : Type) (a b : Z) (h1 h2 : string) :
  (@NullOrigin.get_class_by_hash A a = NullOrigin.get_class_by_hash b
   -> a = b)
  /\ (NullOrigin.get_class_hash_at a = NullOrigin.get_class_hash_at b
      -> a = b)
  /\ (@NullOrigin.get_block_by_hash A h1 = NullOrigin.get_block_by_hash h2
      -> h1 = h2).
Proof.
  unfold NullOrigin.get_class_by_hash, NullOrigin.get_class_hash_at,
    NullOrigin.get_block_by_hash.
  repeat split; intros H; injection H as H.
  - apply append_inj_r in H. apply String.app_inj in H. now apply hex_inj.
  - apply append_inj_r in H. apply String.app_inj in H. now apply hex_inj.
  - apply append_inj_r in H. now apply String.app_inj in H.
Qed.

Lemma null_not_found_identifies_witness :
  (@NullOrigin.get_class_by_hash unit 5 = NullOrigin.get_class_by_hash 5
   -> 5 = 5)
  /\ (NullOrigin.get_class_hash_at 5 = NullOrigin.get_class_hash_at 5
      -> 5 = 5)
  /\ (@NullOrigin.get_block_by_hash unit "0xa"
      = NullOrigin.get_block_by_hash "0xa" -> "0xa" = "0xa").
Proof.
  apply (null_not_found_identifies unit 5 5 "0xa" "0xa").
Defined.

End NullOriginMore.

(* ================================================================== *)
(** * The namespace inside a method string *)
(* ================================================================== *)

Section Namespace.
Context {rt : Runtime}.

Lemma prefix_cons x p c s :
  String.prefix (String x p) (String c s)
  = if ascii_dec x c then String.prefix p s else false.
Proof. reflexivity. Qed.

Lemma prefix_nil s : String.prefix "" s = true.
Proof. destruct s; reflexivity. Qed.

Ltac compare_chars :=
  repeat (rewrite ?prefix_cons, ?prefix_nil;
          match goal with
          | |- context [ascii_dec ?x ?y] =>
              destruct (ascii_dec x y) as [?|?]; [subst|]
          end).

(** ["starknet_"] has no proper prefix that is also a suffix of it: an
    occurrence cannot start inside [s] and end inside a ["starknet_"] put
    behind [s]. *)
Lemma namespace_prefix_local c a b :
  String.prefix "starknet_" (String c a +:+ "starknet_" +:+ b)
  = String.prefix "starknet_" (String c a)
  /\ (String.prefix "starknet_" (String c a) = true ->
      (8 <= String.length a)%nat).
Proof.
  destruct a as [|c1 [|c2 [|c3 [|c4 [|c5 [|c6 [|c7 [|c8 a]]]]]]]];
    cbv [String.append]; compare_chars;
    (split; [try reflexivity; try discriminate; try congruence|]);
    try (intros; discriminate);
    try (intros _; cbn [String.length]; lia).
Qed.

Lemma replace_from_namespace a : forall k b,
  (k <= String.length a)%nat ->
  replace_from "starknet_" "" k (a +:+ "starknet_" +:+ b)
  = replace_from "starknet_" "" k a +:+ replace_from "starknet_" "" 0 b.
Proof.
  induction a as [|c a IH]; intros k b Hk.
  - cbn [String.length] in Hk. assert (k = 0%nat) as -> by lia.
    exact (method_name_of_prefixed b).
  - destruct k as [|k].
    + change (replace_from "starknet_" "" 0 (String c a +:+ "starknet_" +:+ b))
        with (if String.prefix "starknet_"
                   (String c a +:+ "starknet_" +:+ b)
              then replace_from "starknet_" "" 8 (a +:+ "starknet_" +:+ b)
              else String c
                     (replace_from "starknet_" "" 0 (a +:+ "starknet_" +:+ b))).
      change (replace_from "starknet_" "" 0 (String c a))
        with (if String.prefix "starknet_" (String c a)
              then replace_from "starknet_" "" 8 a
              else String c (replace_from "starknet_" "" 0 a)).
      destruct (namespace_prefix_local c a b) as [-> Hlen].
      destruct (String.prefix "starknet_" (String c a)).
      * apply IH. now apply Hlen.
      * change (String c (replace_from "starknet_" "" 0 (a +:+ "starknet_" +:+ b))
                = String c (replace_from "starknet_" "" 0 a
                            +:+ replace_from "starknet_" "" 0 b)).
        f_equal. apply IH. lia.
    + change (replace_from "starknet_" "" k (a +:+ "starknet_" +:+ b)
              = replace_from "starknet_" "" k a
                +:+ replace_from "starknet_" "" 0 b).
      apply IH. cbn [String.length] in Hk. lia.
Qed.

(** X9. a ["starknet_"] anywhere in the method string is deleted without
    touching what stands before and behind it: the name of
    [a + "starknet_" + b] is the name of [a] followed by the name of [b]. *)
Theorem method_name_of_namespace_anywhere (a b : string) :
  method_name_of (a +:+ "starknet_" +:+ b)
  = method_name_of a +:+ method_name_of b.
Proof. apply replace_from_namespace. lia. Qed.

(** X8. the ["id"] is opaque.  Two requests that differ in their id only are
    answered alike: the same result, the same error, or the same exception
    leaving the route. *)
Theorem request_id_is_opaque (m : string) (p i i' : json) :
  match base_route (Sample.request m p i),
        base_route (Sample.request m p i') with
  | Return e1, Return e2 =>
      envelope_result e1 = envelope_result e2 /\
      envelope_error e1 = envelope_error e2
  | Raise x, Raise y => x = y
  | _, _ => False
  end.
Proof.
  unfold Sample.request.
  destruct (methods !! method_name_of m) as [h|] eqn:Hh.
  - pose proof (parse_body_object
                  [("method", JStr m); ("params", p); ("id", i)] m h i
                  eq_refl eq_refl Hh) as H1.
    pose proof (parse_body_object
                  [("method", JStr m); ("params", p); ("id", i')] m h i'
                  eq_refl eq_refl Hh) as H2.
    cbv zeta in H1, H2.
    change (dict_get "params" [("method", JStr m); ("params", p); ("id", i)])
      with (Some p) in H1.
    change (dict_get "params" [("method", JStr m); ("params", p); ("id", i')])
      with (Some p) in H2.
    destruct (is_list _ || is_dict _).
    + rewrite (base_route_parsed _ _ _ _ H1), (base_route_parsed _ _ _ _ H2).
      destruct (apply_params h _) as [c|[]]; cbn; auto.
    + rewrite (base_route_parse_raises _ _ H1),
        (base_route_parse_raises _ _ H2). cbn; auto.
  - rewrite (base_route_parse_raises _ _
               (parse_body_unregistered
                  [("method", JStr m); ("params", p); ("id", i)] m i
                  eq_refl eq_refl Hh)),
      (base_route_parse_raises _ _
               (parse_body_unregistered
                  [("method", JStr m); ("params", p); ("id", i')] m i'
                  eq_refl eq_refl Hh)).
    cbn; auto.
Qed.

End Namespace.
